(** * spz_converter.py: the prerequisite checker and the conversion invoker

    A shallow embedding of [SPZConverter] (its constructor,
    [check_prerequisites] and [convert]) and of the CLI part of [main].
    The Python code is a sequence of calls into the operating system
    (pathlib, shutil, os.environ, subprocess) with prints in between; it is
    modelled in a state and exception monad over

    - an immutable [World]: platform name, search path oracle, environment
      variables, working directory, and the behaviour of child processes;
    - a mutable [State]: the file system, the lines printed so far, and the
      history of [subprocess.run] calls.

    Scope of the environment model: POSIX path flavour, a file system of
    plain files and directories (no symbolic links, no permissions) with
    the limits of Linux on names (255 bytes) and paths (4095 bytes), and
    exceptions derived from [Exception] (asynchronous signals such as
    KeyboardInterrupt are outside the model). *)

From stdpp Require Import gmap strings list pretty.
From Stdlib Require Import ZArith String Ascii.

Open Scope string_scope.
Open Scope Z_scope.

(* ===================================================================== *)
(** ** Python values *)
(* ===================================================================== *)

(** Truth value of an [Optional[str]]: [None] and the empty string are
    false. *)
Definition truthy (o : option string) : bool :=
  match o with
  | Some s => negb (String.eqb s "")
  | None => false
  end.

(** Truth value of a [str]. *)
Definition nonempty (s : string) : bool := negb (String.eqb s "").

(** [s.startswith(pre)]. *)
Fixpoint starts_with (pre s : string) : bool :=
  match pre with
  | EmptyString => true
  | String a pre' =>
      match s with
      | EmptyString => false
      | String b s' => Ascii.eqb a b && starts_with pre' s'
      end
  end.

(** [sep.join(xs)]. *)
Definition join (sep : string) (xs : list string) : string := String.concat sep xs.

(** [repr] of a list of strings, for strings without quotes or escapes. *)
Definition repr_list (xs : list string) : string :=
  "[" ++ join ", " (map (fun x => "'" ++ x ++ "'") xs) ++ "]".

(* ===================================================================== *)
(** ** Exceptions *)
(* ===================================================================== *)

(** The exception classes the code distinguishes, and the ones the file
    system can raise.  All of them derive from [Exception];
    [FileNotFoundError], [FileExistsError] and [NotADirectoryError] derive
    from [OSError], which stands here for an [OSError] of no more special
    class. *)
Inductive exn : Type :=
| TimeoutExpired (cmd : list string) (timeout : Z)
| FileNotFoundError (msg : string)
| FileExistsError (msg : string)
| NotADirectoryError (msg : string)
| OSError (msg : string)
| ValueError (msg : string)
| OtherException (msg : string).

(** [str(e)], as the f-strings render it. *)
Definition exn_str (e : exn) : string :=
  match e with
  | TimeoutExpired cmd t =>
      "Command '" ++ repr_list cmd ++ "' timed out after " ++ pretty t ++ " seconds"
  | FileNotFoundError m | FileExistsError m | NotADirectoryError m
  | OSError m | ValueError m | OtherException m => m
  end.

(* ===================================================================== *)
(** ** pathlib, POSIX flavour *)
(* ===================================================================== *)

(** [s.split('/')]. *)
Fixpoint split_slash (s : string) : list string :=
  match s with
  | EmptyString => [""]
  | String c r =>
      if Ascii.eqb c "/" then "" :: split_slash r
      else match split_slash r with
           | h :: t => String c h :: t
           | [] => [String c ""]
           end
  end.

(** A parsed path: the root ([""], ["/"] or ["//"]) and the components. *)
Record PurePath : Type := mkPath { root : string; parts : list string }.

(** [posixpath.splitroot]: exactly two leading slashes are kept as ["//"]. *)
Definition splitroot (s : string) : string :=
  match s with
  | String "/" (String "/" (String "/" _)) => "/"
  | String "/" (String "/" _) => "//"
  | String "/" _ => "/"
  | _ => ""
  end.

(** [Path(s)]: empty components and ["."] are dropped. *)
Definition Path (s : string) : PurePath :=
  {| root := splitroot s;
     parts := filter (fun x => x ≠ "" ∧ x ≠ ".") (split_slash s) |}.

(** [str(p)]. *)
Definition path_str (p : PurePath) : string :=
  match root p, parts p with
  | "", [] => "."
  | r, t => r ++ join "/" t
  end.

(** [p / s]: an absolute right operand replaces the left one. *)
Definition joinpath (p : PurePath) (s : string) : PurePath :=
  let q := Path s in
  if String.eqb (root q) "" then {| root := root p; parts := parts p ++ parts q |}
  else q.

Notation "p // s" := (joinpath p s) (at level 40, left associativity).

(** [p.parent]. *)
Definition path_parent (p : PurePath) : PurePath :=
  {| root := root p; parts := removelast (parts p) |}.

Definition is_absolute (p : PurePath) : bool := negb (String.eqb (root p) "").

(** A plain file name: one component, neither empty nor a dot name. *)
Fixpoint no_slash (s : string) : bool :=
  match s with
  | EmptyString => true
  | String c r => negb (Ascii.eqb c "/") && no_slash r
  end.

Definition file_name (n : string) : Prop :=
  n ≠ "" ∧ n ≠ "." ∧ n ≠ ".." ∧ no_slash n = true.

(* ===================================================================== *)
(** ** The file system *)
(* ===================================================================== *)

Inductive node : Type := File | Dir.

#[global] Instance node_eq_dec : EqDecision node.
Proof. solve_decision. Defined.

(** Locations are lists of names from the root; the root itself ([[]]) is
    always a directory. *)
Abbreviation location := (list string).
Abbreviation filesystem := (gmap (list string) node).

Definition node_at (f : filesystem) (loc : location) : option node :=
  match loc with
  | [] => Some Dir
  | _ => f !! loc
  end.

(** One step of path resolution from directory [cur]. *)
Definition step (cur : location) (c : string) : location :=
  if String.eqb c ".." then removelast cur else cur ++ [c].

Inductive stat_result : Type :=
| Found (loc : location) (n : node)
| Absent (loc : location)     (* the parent directory exists, the last name does not *)
| NoEnt                       (* ENOENT on an intermediate component *)
| NotDir                      (* ENOTDIR *)
| NameTooLong                 (* ENAMETOOLONG *)
| NulByte.                    (* the path is refused before any system call *)

(** The longest name a directory holds, and the length from which on a
    path is refused. *)
Definition NAME_MAX : nat := 255.
Definition PATH_MAX : nat := 4096.

Definition name_too_long (c : string) : bool := (NAME_MAX <? String.length c)%nat.

(** The string holds a null byte. *)
Fixpoint has_nul (s : string) : bool :=
  match s with
  | EmptyString => false
  | String c r => Ascii.eqb c "000" || has_nul r
  end.

(** Kernel path resolution: every component but the last must be an
    existing directory, and a name is looked up in a directory only if it
    is not too long. *)
Fixpoint walk (f : filesystem) (cur : location) (comps : list string) : stat_result :=
  match comps with
  | [] =>
      match node_at f cur with
      | Some n => Found cur n
      | None => NoEnt
      end
  | c :: rest =>
      match node_at f cur with
      | None => NoEnt
      | Some File => NotDir
      | Some Dir =>
          if name_too_long c then NameTooLong else
          let nxt := step cur c in
          match rest with
          | [] =>
              match node_at f nxt with
              | Some n => Found nxt n
              | None => Absent nxt
              end
          | _ :: _ => walk f nxt rest
          end
      end
  end.

(** [os.path.realpath] without symbolic links: lexical normalisation of the
    path taken from the working directory. *)
Definition normalize (base : location) (comps : list string) : location :=
  fold_left step comps base.

(* ===================================================================== *)
(** ** Child processes, the world and the state *)
(* ===================================================================== *)

(** What happens once [subprocess.run] is called on a command: the child
    terminates after [duration] seconds with an exit status and the two
    captured streams, it never returns, or [subprocess.run] raises (the
    executable cannot be found or started, the output cannot be decoded). *)
Inductive proc_behaviour : Type :=
| Terminates (duration : Z) (returncode : Z) (out err : string)
| NeverReturns
| RunRaises (e : exn).

(** [subprocess.CompletedProcess]. *)
Record CompletedProcess : Type :=
  { returncode : Z; stdout : string; stderr : string }.

Record World : Type :=
  { os_name : string;                       (* os.name *)
    which : string -> option string;        (* shutil.which *)
    environ : gmap string string;           (* os.environ *)
    cwd : location;                         (* os.getcwd() *)
    script_file : string;                   (* __file__ *)
    GUI_AVAILABLE : bool;
    (** behaviour of a command started in a working directory, given the
        file system it sees, and the file system it leaves behind *)
    proc : list string -> PurePath -> filesystem -> proc_behaviour * filesystem }.

(** One call of [subprocess.run], as recorded in the history. *)
Record run_call : Type :=
  { call_cmd : list string;
    call_cwd : option PurePath;
    call_timeout : Z;
    call_fs : filesystem }.

Record State : Type :=
  { st_fs : filesystem;
    st_out : list string;                   (* lines printed, oldest first *)
    st_calls : list run_call }.

(** Computations: a state transformer that returns or raises. *)
Inductive Outcome (A : Type) : Type :=
| Ret (a : A)
| Raise (e : exn).
Arguments Ret {A} a.
Arguments Raise {A} e.

Definition M (A : Type) : Type := State -> Outcome A * State.

Definition ret {A} (a : A) : M A := fun s => (Ret a, s).
Definition raise {A} (e : exn) : M A := fun s => (Raise e, s).

Definition bind {A B} (m : M A) (k : A -> M B) : M B :=
  fun s =>
    match m s with
    | (Ret a, s') => k a s'
    | (Raise e, s') => (Raise e, s')
    end.

(** [try: body except ...: handler]; the handler receives the exception and
    re-raises what it does not handle. *)
Definition try_except {A} (body : M A) (handler : exn -> M A) : M A :=
  fun s =>
    match body s with
    | (Ret a, s') => (Ret a, s')
    | (Raise e, s') => handler e s'
    end.

Notation "'let*' x ':=' m 'in' k" := (bind m (fun x => k))
  (at level 10, x pattern, m at level 100, k at level 200).
Notation "m '>>' k" := (bind m (fun _ => k))
  (at level 100, k at level 200, right associativity).

(** [print(line)]. *)
Definition print (line : string) : M unit :=
  fun s => (Ret tt, {| st_fs := st_fs s; st_out := st_out s ++ [line];
                       st_calls := st_calls s |}).

(** [if cond: body] as a statement. *)
Definition when (cond : bool) (body : M unit) : M unit :=
  if cond then body else ret tt.

Section FileSystemCalls.
Variable w : World.

(** Where path resolution starts. *)
Definition anchor (p : PurePath) : location :=
  if is_absolute p then [] else cwd w.

(** What the system calls make of the path [str(p)]: a text with a null
    byte is refused before the call, a text of [PATH_MAX] bytes or more by
    the kernel, and any other is resolved. *)
Definition stat (f : filesystem) (p : PurePath) : stat_result :=
  if has_nul (path_str p) then NulByte
  else if (PATH_MAX <=? String.length (path_str p))%nat then NameTooLong
  else walk f (anchor p) (parts p).

Definition errno_msg (what : string) (p : PurePath) : string :=
  what ++ ": '" ++ path_str p ++ "'".

(** The [OSError] of ENAMETOOLONG. *)
Definition too_long_error (p : PurePath) : exn :=
  OSError (errno_msg "[Errno 36] File name too long" p).

(** [p.exists()]: ENOENT and ENOTDIR, and the [ValueError] of a null byte,
    are answered with [False]; any other [OSError] is raised again. *)
Definition path_exists (p : PurePath) : M bool :=
  fun s =>
    match stat (st_fs s) p with
    | Found _ _ => (Ret true, s)
    | Absent _ | NoEnt | NotDir => (Ret false, s)
    | NameTooLong => (Raise (too_long_error p), s)
    | NulByte => (Ret false, s)
    end.

(** [p.is_dir()], with the same treatment of errors. *)
Definition is_dir (p : PurePath) : M bool :=
  fun s =>
    match stat (st_fs s) p with
    | Found _ Dir => (Ret true, s)
    | Found _ File => (Ret false, s)
    | Absent _ | NoEnt | NotDir => (Ret false, s)
    | NameTooLong => (Raise (too_long_error p), s)
    | NulByte => (Ret false, s)
    end.

(** [p.resolve()]: absolute, with [".."] collapsed. *)
Definition resolve (p : PurePath) : PurePath :=
  {| root := "/"; parts := normalize (anchor p) (parts p) |}.

(** [os.mkdir(p)]. *)
Definition os_mkdir (p : PurePath) : M unit :=
  fun s =>
    match stat (st_fs s) p with
    | Found _ _ => (Raise (FileExistsError (errno_msg "[Errno 17] File exists" p)), s)
    | Absent loc =>
        (Ret tt, {| st_fs := <[loc := Dir]> (st_fs s); st_out := st_out s;
                    st_calls := st_calls s |})
    | NoEnt =>
        (Raise (FileNotFoundError (errno_msg "[Errno 2] No such file or directory" p)), s)
    | NotDir =>
        (Raise (NotADirectoryError (errno_msg "[Errno 20] Not a directory" p)), s)
    | NameTooLong => (Raise (too_long_error p), s)
    | NulByte => (Raise (ValueError "embedded null byte"), s)
    end.

(** The clause [except OSError] of [Path.mkdir]: the error is swallowed
    only if [exist_ok] holds and the path is a directory. *)
Definition mkdir_except_OSError (exist_ok : bool) (p : PurePath) (e : exn) : M unit :=
  if negb exist_ok then raise e
  else
    let* d := is_dir p in
    if negb d then raise e else ret tt.

(** [Path.mkdir(parents=False, exist_ok=exist_ok)]:
    [FileNotFoundError] is re-raised, any other [OSError] goes to the
    clause above, and what is no [OSError] is not caught. *)
Definition mkdir_leaf (exist_ok : bool) (p : PurePath) : M unit :=
  try_except (os_mkdir p) (fun e =>
    match e with
    | FileNotFoundError _ => raise e
    | FileExistsError _ | NotADirectoryError _ | OSError _ =>
        mkdir_except_OSError exist_ok p e
    | TimeoutExpired _ _ | ValueError _ | OtherException _ => raise e
    end).

(** [Path.mkdir(parents=True, exist_ok=exist_ok)] on the path with root
    [rt] and components [rev rtail]: on [FileNotFoundError] the parent is
    created with [parents=True, exist_ok=True] and the directory itself is
    retried without [parents]; the recursion stops where the path is its
    own parent. *)
Fixpoint mkdir_parents (rt : string) (rtail : list string) (exist_ok : bool)
  : M unit :=
  let p := {| root := rt; parts := rev rtail |} in
  try_except (os_mkdir p) (fun e =>
    match e with
    | FileNotFoundError _ =>
        match rtail with
        | [] => raise e
        | _ :: rparent =>
            mkdir_parents rt rparent true >>
            mkdir_leaf exist_ok p
        end
    | FileExistsError _ | NotADirectoryError _ | OSError _ =>
        mkdir_except_OSError exist_ok p e
    | TimeoutExpired _ _ | ValueError _ | OtherException _ => raise e
    end).

(** [p.mkdir(parents=parents, exist_ok=exist_ok)]. *)
Definition mkdir (p : PurePath) (parents exist_ok : bool) : M unit :=
  if parents then mkdir_parents (root p) (rev (parts p)) exist_ok
  else mkdir_leaf exist_ok p.

(** [subprocess.run(cmd, cwd=cwd, capture_output=True, text=True,
    timeout=timeout)].  Without [cwd] the child starts in the caller's
    working directory. *)
Definition subprocess_run (cmd : list string) (dir : option PurePath)
    (timeout : Z) : M CompletedProcess :=
  fun s =>
    let start := default {| root := "/"; parts := cwd w |} dir in
    let '(b, f') := proc w cmd start (st_fs s) in
    let s' := {| st_fs := f'; st_out := st_out s;
                 st_calls := st_calls s ++
                   [{| call_cmd := cmd; call_cwd := dir;
                       call_timeout := timeout; call_fs := st_fs s |}] |} in
    match b with
    | Terminates d rc o e =>
        if d <? timeout
        then (Ret {| returncode := rc; stdout := o; stderr := e |}, s')
        else (Raise (TimeoutExpired cmd timeout), s')
    | NeverReturns => (Raise (TimeoutExpired cmd timeout), s')
    | RunRaises e => (Raise e, s')
    end.
End FileSystemCalls.

(* ===================================================================== *)
(** ** class SPZConverter *)
(* ===================================================================== *)

Record SPZConverter : Type :=
  { project_root : PurePath;
    java_main_class : string;
    maven_module : string }.

Section Converter.
Variable w : World.

(** [SPZConverter.__init__(project_root)]. *)
Definition SPZConverter_init (root_arg : option string) : SPZConverter :=
  {| project_root :=
       if truthy root_arg then Path (default "" root_arg)
       else path_parent (Path (script_file w));
     java_main_class := "de.javagl.jspz.examples.SpzToTileset";
     maven_module := "jspz-main" |}.

(** ["mvn.cmd" if os.name == "nt" else "mvn"]. *)
Definition mvn_cmd : string :=
  if String.eqb (os_name w) "nt" then "mvn.cmd" else "mvn".

Definition msg_no_maven : string :=
  "Maven not found in PATH. Please install Maven and add it to PATH.".
Definition msg_no_java_home : string :=
  "JAVA_HOME environment variable is not set. Please set JAVA_HOME to your JDK installation.".
Definition msg_no_java_exe (java_exe : PurePath) : string :=
  "Java executable not found at " ++ path_str java_exe ++ ". Please check JAVA_HOME setting.".
Definition msg_maven_test (detail : string) : string :=
  "Maven test failed: " ++ detail.

(** [Path(java_home) / "bin" / ("java.exe" if os.name == "nt" else "java")]. *)
Definition java_exe_of (java_home : string) : PurePath :=
  Path java_home // "bin" // (if String.eqb (os_name w) "nt" then "java.exe" else "java").

(** [SPZConverter.check_prerequisites].  The [try] block yields [Some r]
    where the Python code returns [r] from inside it. *)
Definition check_prerequisites (self : SPZConverter) : M (bool * string) :=
  if negb (truthy (which w mvn_cmd)) then
    ret (false, msg_no_maven)
  else
  let java_home := environ w !! "JAVA_HOME" in
  if negb (truthy java_home) then
    ret (false, msg_no_java_home)
  else
  let java_exe := java_exe_of (default "" java_home) in
  let* present := path_exists w java_exe in
  if negb present then
    ret (false, msg_no_java_exe java_exe)
  else
  let* early :=
    try_except
      (let* result := subprocess_run w [mvn_cmd; "--version"] None 30 in
       if negb (returncode result =? 0)
       then ret (Some (false, msg_maven_test (stderr result)))
       else ret None)
      (fun e => ret (Some (false, msg_maven_test (exn_str e)))) in
  match early with
  | Some r => ret r
  | None => ret (true, "")
  end.

(** The command list built by [convert]. *)
Definition conversion_cmd (self : SPZConverter)
    (input_file output_dir content_filename : string) : list string :=
  let abs_input := path_str (resolve w (Path input_file)) in
  let abs_output := path_str (resolve w (Path output_dir)) in
  [ mvn_cmd; "exec:java";
    "-Dexec.mainClass=" ++ java_main_class self;
    "-Dexec.args=" ++ abs_input ++ " " ++ abs_output ++ " " ++ content_filename;
    "-pl"; maven_module self;
    "-q" ].

(** The [try] statement of [convert]: the two progress lines, the call of
    the external command, the report, and the three [except] clauses. *)
Definition run_conversion (self : SPZConverter)
    (input_file output_dir content_filename : string) (cmd : list string) : M bool :=
  try_except
    (print ("Converting " ++ input_file ++ " to " ++ output_dir ++ "...") >>
     print ("Running: " ++ join " " cmd) >>
     let* result := subprocess_run w cmd (Some (project_root self)) 300 in
     if returncode result =? 0 then
       print "✓ Conversion completed successfully!" >>
       print "  Output files:" >>
       print ("    - " ++ path_str (Path output_dir // "tileset.json")) >>
       print ("    - " ++ path_str (Path output_dir // content_filename)) >>
       ret true
     else
       print "✗ Conversion failed!" >>
       print ("Return code: " ++ pretty (returncode result)) >>
       when (nonempty (stdout result))
            (print ("Standard output: " ++ stdout result)) >>
       when (nonempty (stderr result))
            (print ("Error output: " ++ stderr result)) >>
       ret false)
    (fun e =>
       match e with
       | TimeoutExpired _ _ =>
           print "✗ Conversion timed out after 5 minutes" >> ret false
       | FileNotFoundError _ =>
           print ("✗ Command not found: " ++ exn_str e) >> ret false
       | _ =>
           print ("✗ Unexpected error: " ++ exn_str e) >> ret false
       end).

(** [SPZConverter.convert]. *)
Definition convert (self : SPZConverter)
    (input_file output_dir content_filename : string) : M bool :=
  let* (prereq_ok, prereq_error) := check_prerequisites self in
  if negb prereq_ok then
    print ("✗ Prerequisites check failed: " ++ prereq_error) >> ret false
  else
  let* present := path_exists w (Path input_file) in
  if negb present then
    print ("✗ Input file '" ++ input_file ++ "' does not exist") >> ret false
  else
  mkdir w (Path output_dir) true true >>
  let cmd := conversion_cmd self input_file output_dir content_filename in
  run_conversion self input_file output_dir content_filename cmd.

(* =================================================================== *)
(** ** main, CLI mode *)
(* =================================================================== *)

(** What the user typed, option by option; [None] is an omitted one. *)
Record CommandLine : Type :=
  { cl_gui : bool;
    cl_input_file : option string;
    cl_output_dir : option string;
    cl_content_name : option string;
    cl_project_root : option string }.

(** [sys.argv] as [argparse] classifies it. *)
Inductive argv : Type :=
| BadArguments              (* parser.error: usage on stderr, exit status 2 *)
| HelpRequested             (* -h: help text, exit status 0 *)
| Arguments (c : CommandLine).

(** The namespace returned by [parser.parse_args()]. *)
Record Namespace : Type :=
  { gui : bool;
    input_file : option string;
    output_dir : option string;
    content_name : string;
    ns_project_root : option string }.

(** The declared arguments: [--gui] is [store_true], the positionals are
    [nargs="?"], [--content-name] has [default="content.glb"]. *)
Definition parse_args (c : CommandLine) : Namespace :=
  {| gui := cl_gui c;
     input_file := cl_input_file c;
     output_dir := cl_output_dir c;
     content_name := default "content.glb" (cl_content_name c);
     ns_project_root := cl_project_root c |}.

Inductive main_result : Type :=
| Exit (code : Z)           (* sys.exit(code) *)
| GuiSession.               (* SPZConverterGUI().run(), not modelled *)

(** The exit status of the process: [main] returns after a GUI session,
    and a script that runs to its end exits with status 0. *)
Definition exit_status (r : main_result) : Z :=
  match r with
  | Exit code => code
  | GuiSession => 0
  end.

(** [main()]; [help_text] is what [parser.print_help()] prints. *)
Definition main (help_text : string) (a : argv) : M main_result :=
  match a with
  | BadArguments => ret (Exit 2)
  | HelpRequested => print help_text >> ret (Exit 0)
  | Arguments c =>
      let args := parse_args c in
      if gui args then
        if negb (GUI_AVAILABLE w) then
          print "Error: GUI not available. Please install tkinter." >>
          ret (Exit 1)
        else ret GuiSession
      else
      if negb (truthy (input_file args)) || negb (truthy (output_dir args)) then
        print help_text >> ret (Exit 1)
      else
      let converter := SPZConverter_init (ns_project_root args) in
      let* success := convert converter (default "" (input_file args))
                              (default "" (output_dir args)) (content_name args) in
      ret (Exit (if success then 0 else 1))
  end.
End Converter.

(* ===================================================================== *)
(** ** Vocabulary of the statements *)
(* ===================================================================== *)

(** The path [p] names an existing file or directory in [f]. *)
Definition exists_in (w : World) (f : filesystem) (p : PurePath) : Prop :=
  ∃ loc n, stat w f p = Found loc n.

(** The path [p] names an existing directory in [f]. *)
Definition is_dir_in (w : World) (f : filesystem) (p : PurePath) : Prop :=
  ∃ loc, stat w f p = Found loc Dir.

(** The version query of the prerequisite check, as a [subprocess.run]
    call made when the file system is [f]. *)
Definition version_call (w : World) (f : filesystem) : run_call :=
  {| call_cmd := [mvn_cmd w; "--version"]; call_cwd := None;
     call_timeout := 30; call_fs := f |}.

(** The main conversion call. *)
Definition conversion_call (w : World) (self : SPZConverter)
    (input_file output_dir content_filename : string) (f : filesystem) : run_call :=
  {| call_cmd := conversion_cmd w self input_file output_dir content_filename;
     call_cwd := Some (project_root self);
     call_timeout := 300; call_fs := f |}.

(** [convert], started in [s], gets as far as the [try] statement, which it
    enters in state [s2]: the prerequisites pass, the input file exists and
    the output directory has been made. *)
Definition reaches_launch (w : World) (self : SPZConverter)
    (input_file output_dir : string) (s s2 : State) : Prop :=
  ∃ s1,
    check_prerequisites w self s = (Ret (true, ""), s1) ∧
    exists_in w (st_fs s1) (Path input_file) ∧
    mkdir w (Path output_dir) true true s1 = (Ret tt, s2).

(** The string [x] occurs in one of the lines. *)
Definition reported (lines : list string) (x : string) : Prop :=
  ∃ line pre post, line ∈ lines ∧ line = pre ++ x ++ post.

(** The state in which a [subprocess.run] call leaves the caller. *)
Definition after_run (w : World) (cmd : list string) (dir : option PurePath)
    (timeout : Z) (s : State) : State :=
  {| st_fs := snd (proc w cmd (default {| root := "/"; parts := cwd w |} dir) (st_fs s));
     st_out := st_out s;
     st_calls := (st_calls s ++
       [{| call_cmd := cmd; call_cwd := dir; call_timeout := timeout;
           call_fs := st_fs s |}])%list |}.

(** The behaviour of the child started by a [subprocess.run] call. *)
Definition behaviour (w : World) (cmd : list string) (dir : option PurePath)
    (f : filesystem) : proc_behaviour :=
  fst (proc w cmd (default {| root := "/"; parts := cwd w |} dir) f).


(* ===================================================================== *)
(** ** The prerequisite checks as the specification lists them *)
(* ===================================================================== *)

(** The four checks of section 4.1, in the order of the list there. *)
Inductive prerequisite : Type :=
| BuildTool             (* 1. build tool resolvable on the search path *)
| RuntimeHome           (* 2. runtime-home environment variable set *)
| RuntimeExecutable     (* 3. runtime executable present under that directory *)
| SelfTest.             (* 4. version query exits with zero within 30 *)

#[global] Instance prerequisite_eq_dec : EqDecision prerequisite.
Proof. solve_decision. Defined.

Definition stated_order : list prerequisite :=
  [BuildTool; RuntimeHome; RuntimeExecutable; SelfTest].

(** The place of a check in the stated order. *)
Definition rank (c : prerequisite) : nat :=
  match c with
  | BuildTool => 0
  | RuntimeHome => 1
  | RuntimeExecutable => 2
  | SelfTest => 3
  end.

(** The version query, judged by the specification: [None] when it exits
    with zero within the bound, otherwise the error text to report. *)
Definition self_test_failure (w : World) (f : filesystem) : option string :=
  let query := [mvn_cmd w; "--version"] in
  match behaviour w query None f with
  | Terminates d rc _ err =>
      if d <? 30 then (if rc =? 0 then None else Some err)
      else Some (exn_str (TimeoutExpired query 30))
  | NeverReturns => Some (exn_str (TimeoutExpired query 30))
  | RunRaises e => Some (exn_str e)
  end.

(** The runtime executable the third check looks for. *)
Definition expected_java_exe (w : World) : PurePath :=
  java_exe_of w (default "" (environ w !! "JAVA_HOME")).

(** One check in a world with file system [f]: [None] when it passes,
    otherwise its diagnostic. *)
Definition check_result (w : World) (f : filesystem) (c : prerequisite)
  : option string :=
  match c with
  | BuildTool =>
      if truthy (which w (mvn_cmd w)) then None else Some msg_no_maven
  | RuntimeHome =>
      if truthy (environ w !! "JAVA_HOME") then None else Some msg_no_java_home
  | RuntimeExecutable =>
      match stat w f (expected_java_exe w) with
      | Found _ _ => None
      | _ => Some (msg_no_java_exe (expected_java_exe w))
      end
  | SelfTest => msg_maven_test <$> self_test_failure w f
  end.

(** The existence test of the third check is reached and raises. *)
Definition exists_check_raises (w : World) (f : filesystem) : bool :=
  truthy (which w (mvn_cmd w)) && truthy (environ w !! "JAVA_HOME") &&
  match stat w f (expected_java_exe w) with
  | NameTooLong => true
  | _ => false
  end.

(** The first failing check of a list, with its diagnostic. *)
Fixpoint first_failure (w : World) (f : filesystem) (cs : list prerequisite)
  : option (prerequisite * string) :=
  match cs with
  | [] => None
  | c :: rest =>
      match check_result w f c with
      | Some d => Some (c, d)
      | None => first_failure w f rest
      end
  end.

(** The checks that are carried out when a failing one stops the rest. *)
Fixpoint performed (w : World) (f : filesystem) (cs : list prerequisite)
  : list prerequisite :=
  match cs with
  | [] => []
  | c :: rest =>
      c :: match check_result w f c with
           | Some _ => []
           | None => performed w f rest
           end
  end.

(** The result section 4.1 prescribes. *)
Definition check_prerequisites_spec (w : World) (f : filesystem) : bool * string :=
  match first_failure w f stated_order with
  | Some (_, d) => (false, d)
  | None => (true, "")
  end.

(** The check a diagnostic names, read off its opening words. *)
Definition diagnosed (msg : string) : option prerequisite :=
  if starts_with "Maven not found" msg then Some BuildTool
  else if starts_with "JAVA_HOME environment variable is not set" msg then Some RuntimeHome
  else if starts_with "Java executable not found at " msg then Some RuntimeExecutable
  else if starts_with "Maven test failed: " msg then Some SelfTest
  else None.

(* ===================================================================== *)
(** ** A concrete installation, for the examples *)
(* ===================================================================== *)

Module Demo.
(** A JDK under /opt/jdk, a user directory with one input file. *)
Definition fs0 : filesystem :=
  list_to_map
    [ (["opt"], Dir); (["opt"; "jdk"], Dir); (["opt"; "jdk"; "bin"], Dir);
      (["opt"; "jdk"; "bin"; "java"], File);
      (["home"], Dir); (["home"; "u"], Dir);
      (["home"; "u"; "in.spz"], File) ].

(** A POSIX machine with Maven installed; the version query answers at
    once, the conversion command behaves as [b]. *)
Definition world (os : string) (b : proc_behaviour) : World :=
  {| os_name := os;
     which := fun c =>
       if String.eqb c "mvn" || String.eqb c "mvn.cmd"
       then Some ("/usr/bin/" ++ c) else None;
     environ := {[ "JAVA_HOME" := "/opt/jdk" ]};
     cwd := ["home"; "u"];
     script_file := "/home/u/JSpz/spz_converter.py";
     GUI_AVAILABLE := false;
     proc := fun cmd _ f =>
       match cmd with
       | [_; "--version"] => (Terminates 1 0 "Apache Maven 3.9.6" "", f)
       | _ => (b, f)
       end |}.

(** The same machine without Maven on the search path. *)
Definition world_without_maven : World :=
  {| os_name := "posix";
     which := fun _ => None;
     environ := {[ "JAVA_HOME" := "/opt/jdk" ]};
     cwd := ["home"; "u"];
     script_file := "/home/u/JSpz/spz_converter.py";
     GUI_AVAILABLE := false;
     proc := fun _ _ f => (NeverReturns, f) |}.

(** A machine with neither Maven nor JAVA_HOME, where Maven would not
    start either. *)
Definition bare_world : World :=
  {| os_name := "posix";
     which := fun _ => None;
     environ := ∅;
     cwd := ["home"; "u"];
     script_file := "/home/u/JSpz/spz_converter.py";
     GUI_AVAILABLE := false;
     proc := fun _ _ f =>
       (RunRaises (FileNotFoundError "[Errno 2] No such file or directory: 'mvn'"), f) |}.

Definition s0 : State := {| st_fs := fs0; st_out := []; st_calls := [] |}.

Definition converter (w : World) : SPZConverter := SPZConverter_init w None.

(** The state after the prerequisite check, and after the output
    directory [o] has been made. *)
Definition s1 (w : World) : State :=
  after_run w [mvn_cmd w; "--version"] None 30 s0.
Definition s2 (w : World) (o : string) : State :=
  snd (mkdir w (Path o) true true (s1 w)).

(** The command line [spz_converter.py in.spz out]. *)
Definition cli : CommandLine :=
  {| cl_gui := false;
     cl_input_file := Some "in.spz";
     cl_output_dir := Some "out";
     cl_content_name := None;
     cl_project_root := None |}.

(** Behaviours of the conversion command used in the examples. *)
Definition succeeds : proc_behaviour := Terminates 12 0 "" "".
Definition fails : proc_behaviour := Terminates 12 1 "" "bad SPZ header".
End Demo.

(* ===================================================================== *)
(** ** What convert prints *)
(* ===================================================================== *)

(** The state after printing [lines]. *)
Definition printed (s : State) (lines : list string) : State :=
  {| st_fs := st_fs s; st_out := (st_out s ++ lines)%list; st_calls := st_calls s |}.

(** The two progress lines printed before the external command is run. *)
Definition progress_lines (input_file output_dir : string) (cmd : list string)
  : list string :=
  [ "Converting " ++ input_file ++ " to " ++ output_dir ++ "...";
    "Running: " ++ join " " cmd ].

Definition prerequisites_failed_line (diagnostic : string) : string :=
  "✗ Prerequisites check failed: " ++ diagnostic.
Definition input_missing_line (input_file : string) : string :=
  "✗ Input file '" ++ input_file ++ "' does not exist".
Definition timeout_line : string := "✗ Conversion timed out after 5 minutes".
Definition failed_line : string := "✗ Conversion failed!".
Definition not_found_line (e : exn) : string := "✗ Command not found: " ++ exn_str e.
Definition unexpected_line (e : exn) : string := "✗ Unexpected error: " ++ exn_str e.

(** The lines reported on success. *)
Definition success_lines (output_dir content_filename : string) : list string :=
  [ "✓ Conversion completed successfully!";
    "  Output files:";
    "    - " ++ path_str (Path output_dir // "tileset.json");
    "    - " ++ path_str (Path output_dir // content_filename) ].

(** The lines reported on a non-zero exit status. *)
Definition failure_lines (rc : Z) (out err : string) : list string :=
  app [ failed_line; "Return code: " ++ pretty rc ]
      (app (if nonempty out then [ "Standard output: " ++ out ] else [])
           (if nonempty err then [ "Error output: " ++ err ] else [])).

(** The result of the [try] statement and the lines it prints after the
    progress lines, for each behaviour of the external command. *)
Definition report (output_dir content_filename : string) (b : proc_behaviour)
  : bool * list string :=
  match b with
  | Terminates d rc out err =>
      if d <? 300 then
        if rc =? 0 then (true, success_lines output_dir content_filename)
        else (false, failure_lines rc out err)
      else (false, [timeout_line])
  | NeverReturns => (false, [timeout_line])
  | RunRaises e =>
      (false, [ match e with
                | TimeoutExpired _ _ => timeout_line
                | FileNotFoundError _ => not_found_line e
                | _ => unexpected_line e
                end ])
  end.

(** The external command does not return within the 300 bound. *)
Definition exceeds_timeout (b : proc_behaviour) : Prop :=
  match b with
  | Terminates d _ _ _ => 300 <= d
  | NeverReturns => True
  | RunRaises _ => False
  end.

(* ===================================================================== *)
(** ** More of Python: str.strip, str.split, io.StringIO *)
(* ===================================================================== *)

(** A string given by its bytes. *)
Definition bytes (codes : list nat) : string :=
  string_of_list_ascii (map ascii_of_nat codes).

(** The line feed that [print] and [SPZConverterGUI.log] append. *)
Definition newline : string := bytes [10%nat].

(** The characters for which [str.isspace] holds, in UTF-8: U+0009 to
    U+000D, U+001C to U+0020, U+0085, U+00A0, U+1680, U+2000 to U+200A,
    U+2028, U+2029, U+202F, U+205F and U+3000. *)
Definition whitespace : list string :=
  map bytes
    [ [9]; [10]; [11]; [12]; [13]; [28]; [29]; [30]; [31]; [32];
      [194; 133]; [194; 160]; [225; 154; 128];
      [226; 128; 128]; [226; 128; 129]; [226; 128; 130]; [226; 128; 131];
      [226; 128; 132]; [226; 128; 133]; [226; 128; 134]; [226; 128; 135];
      [226; 128; 136]; [226; 128; 137]; [226; 128; 138];
      [226; 128; 168]; [226; 128; 169]; [226; 128; 175];
      [226; 129; 159]; [227; 128; 128] ]%nat.

(** [s] without the prefix [pre], if it starts with it. *)
Fixpoint drop_prefix (pre s : string) : option string :=
  match pre with
  | EmptyString => Some s
  | String a pre' =>
      match s with
      | EmptyString => None
      | String b s' => if Ascii.eqb a b then drop_prefix pre' s' else None
      end
  end.

(** [s] without its first character, if that is one of [tokens]. *)
Fixpoint drop_token (tokens : list string) (s : string) : option string :=
  match tokens with
  | [] => None
  | t :: rest =>
      match drop_prefix t s with
      | Some r => Some r
      | None => drop_token rest s
      end
  end.

(** Leading [tokens] removed, at most [fuel] of them. *)
Fixpoint drop_leading (tokens : list string) (fuel : nat) (s : string) : string :=
  match fuel with
  | O => s
  | S fuel' =>
      match drop_token tokens s with
      | Some r => drop_leading tokens fuel' r
      | None => s
      end
  end.

Definition string_rev (s : string) : string :=
  string_of_list_ascii (rev (list_ascii_of_string s)).

(** [s.lstrip()], [s.rstrip()] and [s.strip()]. *)
Definition lstrip (s : string) : string :=
  drop_leading whitespace (String.length s) s.

Definition rstrip (s : string) : string :=
  string_rev (drop_leading (map string_rev whitespace) (String.length s)
                (string_rev s)).

Definition strip (s : string) : string := rstrip (lstrip s).

(** [s.split(sep)] for a separator of one character. *)
Fixpoint split_on (sep : ascii) (s : string) : list string :=
  match s with
  | EmptyString => [""]
  | String c r =>
      if Ascii.eqb c sep then "" :: split_on sep r
      else match split_on sep r with
           | h :: t => String c h :: t
           | [] => [String c ""]
           end
  end.

(** The character [c] does not occur in [s]. *)
Fixpoint lacks (c : ascii) (s : string) : bool :=
  match s with
  | EmptyString => true
  | String a r => negb (Ascii.eqb a c) && lacks c r
  end.

(** [log_stream.getvalue()] after the [lines] were printed into the
    stream: [print] ends every line with a line feed. *)
Definition getvalue (lines : list string) : string :=
  String.concat "" (map (fun line => line ++ newline) lines).

(* ===================================================================== *)
(** ** Redirected output *)
(* ===================================================================== *)

(** The state with [lines] as the output printed so far. *)
Definition with_out (s : State) (lines : list string) : State :=
  {| st_fs := st_fs s; st_out := lines; st_calls := st_calls s |}.

(** The state with [pre] printed before everything else. *)
Definition prefixed (pre : list string) (s : State) : State :=
  with_out s (pre ++ st_out s).

(** [with contextlib.redirect_stdout(io.StringIO()): body]: what the body
    prints is collected in the stream and handed back; the console gets
    nothing, and is in place again when the block is left, also by an
    exception. *)
Definition redirect_stdout {A} (body : M A) : M (A * list string) :=
  fun s =>
    match body (with_out s []) with
    | (Ret a, s') => (Ret (a, st_out s'), with_out s' (st_out s))
    | (Raise e, s') => (Raise e, with_out s' (st_out s))
    end.

(** A computation that only ever appends to the output: what was printed
    before it started changes neither its result nor anything else. *)
Definition appends_only {A} (m : M A) : Prop :=
  ∀ pre s, m (prefixed pre s) = (fst (m s), prefixed pre (snd (m s))).

(* ===================================================================== *)
(** ** class SPZConverterGUI *)
(* ===================================================================== *)

(** A message box shown by [tkinter.messagebox]. *)
Inductive dialog : Type :=
| ShowError (title message : string)
| ShowInfo (title message : string).

(** The parts of the window that the methods read and write: the three
    [StringVar]s, the text of the log area, and the message boxes shown so
    far (oldest first).  Layout and event loop are not modelled. *)
Record SPZConverterGUI : Type :=
  { converter : SPZConverter;
    gui_input_file : string;
    gui_output_dir : string;
    gui_content_filename : string;
    log_text : string;
    dialogs : list dialog }.

Section GUI.
Variable w : World.

(** [SPZConverterGUI.__init__]. *)
Definition SPZConverterGUI_init : SPZConverterGUI :=
  {| converter := SPZConverter_init w None;
     gui_input_file := "";
     gui_output_dir := "";
     gui_content_filename := "content.glb";
     log_text := "";
     dialogs := [] |}.

Definition set_input_file (v : string) (g : SPZConverterGUI) : SPZConverterGUI :=
  {| converter := converter g; gui_input_file := v;
     gui_output_dir := gui_output_dir g;
     gui_content_filename := gui_content_filename g;
     log_text := log_text g; dialogs := dialogs g |}.

Definition set_output_dir (v : string) (g : SPZConverterGUI) : SPZConverterGUI :=
  {| converter := converter g; gui_input_file := gui_input_file g;
     gui_output_dir := v;
     gui_content_filename := gui_content_filename g;
     log_text := log_text g; dialogs := dialogs g |}.

Definition set_content_filename (v : string) (g : SPZConverterGUI) : SPZConverterGUI :=
  {| converter := converter g; gui_input_file := gui_input_file g;
     gui_output_dir := gui_output_dir g;
     gui_content_filename := v;
     log_text := log_text g; dialogs := dialogs g |}.

Definition set_log_text (v : string) (g : SPZConverterGUI) : SPZConverterGUI :=
  {| converter := converter g; gui_input_file := gui_input_file g;
     gui_output_dir := gui_output_dir g;
     gui_content_filename := gui_content_filename g;
     log_text := v; dialogs := dialogs g |}.

(** [messagebox.showerror] and [messagebox.showinfo]. *)
Definition show (d : dialog) (g : SPZConverterGUI) : SPZConverterGUI :=
  {| converter := converter g; gui_input_file := gui_input_file g;
     gui_output_dir := gui_output_dir g;
     gui_content_filename := gui_content_filename g;
     log_text := log_text g; dialogs := dialogs g ++ [d] |}.

(** [browse_input_file], with the answer of the file dialog (empty when the
    dialog is cancelled). *)
Definition browse_input_file (filename : string) (g : SPZConverterGUI)
  : SPZConverterGUI :=
  if nonempty filename then set_input_file filename g else g.

(** [browse_output_dir], with the answer of the directory dialog. *)
Definition browse_output_dir (dirname : string) (g : SPZConverterGUI)
  : SPZConverterGUI :=
  if nonempty dirname then set_output_dir dirname g else g.

(** [SPZConverterGUI.log]: the message and a line feed go to the end of
    the log area. *)
Definition SPZConverterGUI_log (message : string) (g : SPZConverterGUI)
  : SPZConverterGUI :=
  set_log_text (log_text g ++ message ++ newline) g.

Definition dialog_no_input : dialog :=
  ShowError "Error" "Please select an input SPZ file".
Definition dialog_no_output : dialog :=
  ShowError "Error" "Please select an output directory".
Definition dialog_success : dialog :=
  ShowInfo "Success" "Conversion completed successfully!".
Definition dialog_failure : dialog :=
  ShowError "Error" "Conversion failed. Check the log for details.".

(** [SPZConverterGUI.convert], the handler of the Convert button. *)
Definition SPZConverterGUI_convert (g : SPZConverterGUI) (s : State)
  : Outcome unit * SPZConverterGUI * State :=
  let input_file := strip (gui_input_file g) in
  let output_dir := strip (gui_output_dir g) in
  let content_filename := strip (gui_content_filename g) in
  if negb (nonempty input_file) then
    (Ret tt, show dialog_no_input g, s)
  else
  if negb (nonempty output_dir) then
    (Ret tt, show dialog_no_output g, s)
  else
  let '(content_filename, g) :=
    if negb (nonempty content_filename)
    then ("content.glb", set_content_filename "content.glb" g)
    else (content_filename, g) in
  let g := set_log_text "" g in
  match redirect_stdout
          (convert w (converter g) input_file output_dir content_filename) s with
  | (Raise e, s') => (Raise e, g, s')
  | (Ret (success, captured), s') =>
      let g := SPZConverterGUI_log (getvalue captured) g in
      (Ret tt, show (if success then dialog_success else dialog_failure) g, s')
  end.
End GUI.

(* ===================================================================== *)
(** ** More vocabulary *)
(* ===================================================================== *)

(** The second file system keeps every entry of the first, and has no
    regular file that the first has not. *)
Definition only_adds_dirs (f f' : filesystem) : Prop :=
  (∀ x n, node_at f x = Some n → node_at f' x = Some n) ∧
  (∀ x, node_at f' x = Some File → node_at f x = Some File).

(** A file system is well formed when every entry lies in a directory. *)
Definition fs_wf (f : filesystem) : Prop :=
  ∀ loc n, f !! loc = Some n → node_at f (removelast loc) = Some Dir.

#[global] Instance fs_wf_dec (f : filesystem) : Decision (fs_wf f).
Proof. unfold fs_wf. apply map_Forall_dec. intros loc n. apply _. Defined.





(** Child processes that leave the file system as they find it. *)
Definition children_inert (w : World) : Prop :=
  ∀ cmd dir f, snd (proc w cmd dir f) = f.

(** The text [x] is the text of an absolute path without dots: resolving
    it changes nothing. *)
Definition already_resolved (w : World) (x : string) : Prop :=
  path_str (resolve w (Path x)) = x.

(** Between two states nothing was printed, no command was run, and the
    file system only gained directories. *)
Definition dirs_added (s s' : State) : Prop :=
  only_adds_dirs (st_fs s) (st_fs s') ∧
  st_out s' = st_out s ∧ st_calls s' = st_calls s.

(** A computation whose whole effect is to add directories. *)
Definition adds_dirs_only {A} (m : M A) : Prop :=
  ∀ s, dirs_added s (snd (m s)).

(* ===================================================================== *)
(** ** More of the concrete installation *)
(* ===================================================================== *)

Module Desk.
(** The machine of [Demo] with [JAVA_HOME] set to the empty string. *)
Definition world_empty_java_home : World :=
  {| os_name := "posix";
     which := fun c => if String.eqb c "mvn" then Some "/usr/bin/mvn" else None;
     environ := {[ "JAVA_HOME" := "" ]};
     cwd := ["home"; "u"];
     script_file := "/home/u/JSpz/spz_converter.py";
     GUI_AVAILABLE := false;
     proc := fun _ _ f => (NeverReturns, f) |}.

(** A window whose fields were typed with blanks around the values, and
    with the content name left blank. *)
Definition window (w : World) : SPZConverterGUI :=
  set_content_filename "  "
    (set_output_dir "out "
       (set_input_file " in.spz" (SPZConverterGUI_init w))).

(** The command line [spz_converter.py --content-name "" in.spz out]. *)
Definition cli_empty_name : CommandLine :=
  {| cl_gui := false;
     cl_input_file := Some "in.spz";
     cl_output_dir := Some "out";
     cl_content_name := Some "";
     cl_project_root := None |}.

(** A name of 300 bytes, more than a directory holds. *)
Definition long_name : string := string_of_list_ascii (repeat "a"%char 300).

(** The machine of [Demo] with [JAVA_HOME] set to a directory of that name,
    and with a Maven that would not answer either. *)
Definition world_long_java_home : World :=
  {| os_name := "posix";
     which := fun c => if String.eqb c "mvn" then Some "/usr/bin/mvn" else None;
     environ := {[ "JAVA_HOME" := "/" ++ long_name ]};
     cwd := ["home"; "u"];
     script_file := "/home/u/JSpz/spz_converter.py";
     GUI_AVAILABLE := false;
     proc := fun _ _ f => (NeverReturns, f) |}.

(** The machine of [Demo] with a conversion command that writes its two
    files into /home/u/out and then exits with status [rc]. *)
Definition world_writing (rc : Z) : World :=
  {| os_name := "posix";
     which := fun c => if String.eqb c "mvn" then Some "/usr/bin/mvn" else None;
     environ := {[ "JAVA_HOME" := "/opt/jdk" ]};
     cwd := ["home"; "u"];
     script_file := "/home/u/JSpz/spz_converter.py";
     GUI_AVAILABLE := false;
     proc := fun cmd _ f =>
       match cmd with
       | [_; "--version"] => (Terminates 1 0 "Apache Maven 3.9.6" "", f)
       | _ =>
           (Terminates 12 rc "" "",
            <[ ["home"; "u"; "out"; "content.glb"] := File ]>
              (<[ ["home"; "u"; "out"; "tileset.json"] := File ]> f))
       end |}.

(** The machine of [Demo] with the toolkit installed. *)
Definition world_with_toolkit : World :=
  {| os_name := "posix";
     which := fun c => if String.eqb c "mvn" then Some "/usr/bin/mvn" else None;
     environ := {[ "JAVA_HOME" := "/opt/jdk" ]};
     cwd := ["home"; "u"];
     script_file := "/home/u/JSpz/spz_converter.py";
     GUI_AVAILABLE := true;
     proc := fun _ _ f => (NeverReturns, f) |}.

(** The command line [spz_converter.py --gui]. *)
Definition cli_gui : CommandLine :=
  {| cl_gui := true;
     cl_input_file := None;
     cl_output_dir := None;
     cl_content_name := None;
     cl_project_root := None |}.

(** The command line [spz_converter.py in.spz], without output directory. *)
Definition cli_one_path : CommandLine :=
  {| cl_gui := false;
     cl_input_file := Some "in.spz";
     cl_output_dir := None;
     cl_content_name := None;
     cl_project_root := None |}.
End Desk.
(* ===================================================================== *)
(** ** The path model on small inputs *)
(* ===================================================================== *)

Example Path_drops_empty_and_dot :
  Path "//a/./b//c/" = {| root := "//"; parts := ["a"; "b"; "c"] |}.
Proof. reflexivity. Qed.

Example Path_three_slashes : path_str (Path "///a") = "/a".
Proof. reflexivity. Qed.

Example Path_empty_is_dot : path_str (Path "") = ".".
Proof. reflexivity. Qed.

Example joinpath_java_exe :
  path_str (Path "/opt/jdk/" // "bin" // "java") = "/opt/jdk/bin/java".
Proof. reflexivity. Qed.

Example joinpath_absolute_operand :
  path_str (Path "out" // "/tmp/scene.glb") = "/tmp/scene.glb".
Proof. reflexivity. Qed.

Example resolve_collapses_dotdot :
  path_str (resolve (Demo.world "posix" NeverReturns) (Path "x/../../out")) = "/home/out".
Proof. reflexivity. Qed.

Example stat_through_a_file :
  stat (Demo.world "posix" NeverReturns) Demo.fs0 (Path "in.spz/x") = NotDir.
Proof. vm_compute. reflexivity. Qed.

Example mkdir_through_a_file :
  fst (mkdir (Demo.world "posix" NeverReturns) (Path "in.spz/x") true true Demo.s0)
  = Raise (NotADirectoryError "[Errno 20] Not a directory: 'in.spz/x'").
Proof. vm_compute. reflexivity. Qed.

Example mkdir_with_dotdot :
  let s' := snd (mkdir (Demo.world "posix" NeverReturns) (Path "x/../y") true true
                   Demo.s0) in
  st_fs s' !! ["home"; "u"; "x"] = Some Dir ∧
  st_fs s' !! ["home"; "u"; "y"] = Some Dir.
Proof. vm_compute. split; reflexivity. Qed.

Example stat_name_too_long :
  stat (Demo.world "posix" NeverReturns) Demo.fs0 (Path Desk.long_name) = NameTooLong ∧
  stat (Demo.world "posix" NeverReturns) Demo.fs0 (Path ("missing/" ++ Desk.long_name))
    = NoEnt ∧
  stat (Demo.world "posix" NeverReturns) Demo.fs0 (Path ("in.spz/" ++ Desk.long_name))
    = NotDir.
Proof. vm_compute. repeat split; reflexivity. Qed.

Example mkdir_name_too_long :
  fst (mkdir (Demo.world "posix" NeverReturns) (Path "bbbb/../cc") true true Demo.s0)
    = Ret tt ∧
  fst (mkdir (Demo.world "posix" NeverReturns)
         (Path ("missing/" ++ Desk.long_name)) true true Demo.s0)
    = Raise (too_long_error (Path ("missing/" ++ Desk.long_name))).
Proof. vm_compute. split; reflexivity. Qed.

Example timeout_message :
  exn_str (TimeoutExpired ["mvn"; "--version"] 30)
  = "Command '['mvn', '--version']' timed out after 30 seconds".
Proof. reflexivity. Qed.

(* ===================================================================== *)
(** ** Basic facts about the calls *)
(* ===================================================================== *)

Lemma path_exists_true w p s :
  exists_in w (st_fs s) p → path_exists w p s = (Ret true, s).
Proof. intros (loc & n & H). unfold path_exists. by rewrite H. Qed.

(** [exists()] answers [False] for a path that does not exist, unless a
    name on the way is too long. *)
Lemma path_exists_false w p s :
  ¬ exists_in w (st_fs s) p → stat w (st_fs s) p ≠ NameTooLong →
  path_exists w p s = (Ret false, s).
Proof.
  intros H Hlong. unfold path_exists.
  destruct (stat w (st_fs s) p) eqn:E; try done.
  exfalso. apply H. by eexists _, _.
Qed.

(** [exists()] raises where a name on the way is too long. *)
Lemma path_exists_raises w p s :
  stat w (st_fs s) p = NameTooLong →
  path_exists w p s = (Raise (too_long_error p), s).
Proof. intros H. unfold path_exists. by rewrite H. Qed.

Lemma not_exists_too_long w f p : stat w f p = NameTooLong → ¬ exists_in w f p.
Proof. intros H (loc & n & H'). congruence. Qed.

Lemma bind_ret_l {A B} (m : M A) (k : A → M B) s a s' :
  m s = (Ret a, s') → bind m k s = k a s'.
Proof. intros H. unfold bind. by rewrite H. Qed.

Lemma bind_raise_l {A B} (m : M A) (k : A → M B) s e s' :
  m s = (Raise e, s') → bind m k s = (Raise e, s').
Proof. intros H. unfold bind. by rewrite H. Qed.

Lemma subprocess_run_spec w cmd dir timeout s :
  subprocess_run w cmd dir timeout s =
  (match behaviour w cmd dir (st_fs s) with
   | Terminates d rc o e =>
       if d <? timeout then Ret {| returncode := rc; stdout := o; stderr := e |}
       else Raise (TimeoutExpired cmd timeout)
   | NeverReturns => Raise (TimeoutExpired cmd timeout)
   | RunRaises e => Raise e
   end, after_run w cmd dir timeout s).
Proof.
  unfold subprocess_run, behaviour, after_run.
  destruct (proc w cmd _ (st_fs s)) as [b f'].
  destruct b; simpl; try done. by destruct (_ <? _).
Qed.

(* ===================================================================== *)
(** ** The prerequisite checker *)
(* ===================================================================== *)

Ltac elem_of_concrete :=
  first
    [ by repeat first [apply list_elem_of_here | apply list_elem_of_further]
    | let H := fresh in
      intros H; repeat (apply elem_of_cons in H as [H|H]; [discriminate H|]);
      by apply elem_of_nil in H ].

(** Unless the existence test of the third check raises,
    [check_prerequisites] computes the prescribed result, and runs the
    version query exactly when the first three checks pass. *)
Lemma check_prerequisites_refines w self s :
  check_prerequisites w self s =
  if exists_check_raises w (st_fs s)
  then (Raise (too_long_error (expected_java_exe w)), s)
  else (Ret (check_prerequisites_spec w (st_fs s)),
        if decide (SelfTest ∈ performed w (st_fs s) stated_order)
        then after_run w [mvn_cmd w; "--version"] None 30 s else s).
Proof.
  unfold check_prerequisites, check_prerequisites_spec, stated_order,
    exists_check_raises.
  cbn [first_failure performed check_result].
  destruct (truthy (which w (mvn_cmd w))) eqn:Hwhich; cbn [negb andb].
  2: { rewrite decide_False; [done | elem_of_concrete]. }
  destruct (truthy (environ w !! "JAVA_HOME")) eqn:Hhome; cbn [negb andb].
  2: { rewrite decide_False; [done | elem_of_concrete]. }
  unfold bind at 1, path_exists. fold (expected_java_exe w).
  destruct (stat w (st_fs s) (expected_java_exe w)) eqn:Hexe; cbn [negb];
    try done; try (rewrite decide_False; [done | elem_of_concrete]).
  rewrite decide_True by elem_of_concrete.
  unfold bind, try_except, self_test_failure. rewrite subprocess_run_spec.
  destruct (behaviour w _ None (st_fs s)) as [d rc o e | | e]; cbn; try done.
  destruct (d <? 30); cbn; [|done].
  by destruct (rc =? 0).
Qed.

(* ===================================================================== *)
(** ** The conversion invoker *)
(* ===================================================================== *)

Lemma printed_printed s a b : printed (printed s a) b = printed s (a ++ b).
Proof. unfold printed. simpl. by rewrite <- app_assoc. Qed.

Lemma print_bind {A} line (k : M A) s :
  (print line >> k) s = k (printed s [line]).
Proof. done. Qed.

Lemma ret_bind {A B} (a : A) (k : A → M B) s : bind (ret a) k s = k a s.
Proof. done. Qed.

(** The [try] statement never raises; its result and its output are those
    of [report]. *)
Lemma run_conversion_spec w self i o n cmd s :
  let b := behaviour w cmd (Some (project_root self)) (st_fs s) in
  run_conversion w self i o n cmd s =
  (Ret (fst (report o n b)),
   printed (after_run w cmd (Some (project_root self)) 300
              (printed s (progress_lines i o cmd)))
           (snd (report o n b))).
Proof.
  intros b. subst b. unfold run_conversion, try_except.
  rewrite !print_bind, printed_printed. cbn [app].
  fold (progress_lines i o cmd).
  unfold bind at 1. rewrite subprocess_run_spec.
  change (st_fs (printed s (progress_lines i o cmd))) with (st_fs s).
  set (s' := after_run _ _ _ _ _).
  destruct (behaviour w cmd _ (st_fs s)) as [d rc so se | | e]; cbn [report].
  - destruct (d <? 300); [|done]. cbn [returncode stdout stderr].
    destruct (rc =? 0) eqn:Hrc; cbn [fst snd].
    + by rewrite !print_bind, !printed_printed.
    + rewrite !print_bind, !printed_printed. unfold failure_lines, when.
      destruct (nonempty so), (nonempty se);
        by rewrite ?print_bind, ?ret_bind, ?print_bind, ?ret_bind, ?printed_printed.
  - done.
  - by destruct e.
Qed.

(** Up to the [try] statement. *)
Lemma convert_reaches w self i o n s s2 :
  reaches_launch w self i o s s2 →
  convert w self i o n s =
  run_conversion w self i o n (conversion_cmd w self i o n) s2.
Proof.
  intros (s1 & Hpre & Hin & Hmk). unfold convert.
  rewrite (bind_ret_l _ _ _ _ _ Hpre). cbn [negb].
  rewrite (bind_ret_l _ _ _ _ _ (path_exists_true _ _ _ Hin)). cbn [negb].
  by rewrite (bind_ret_l _ _ _ _ _ Hmk).
Qed.

(** A failing prerequisite check ends [convert] with one printed line. *)
Lemma convert_prereq_failed w self i o n s d s1 :
  check_prerequisites w self s = (Ret (false, d), s1) →
  convert w self i o n s =
  (Ret false, printed s1 [prerequisites_failed_line d]).
Proof. intros H. unfold convert. by rewrite (bind_ret_l _ _ _ _ _ H). Qed.

(** A missing input file ends [convert] with one printed line. *)
Lemma convert_input_missing w self i o n s s1 :
  check_prerequisites w self s = (Ret (true, ""), s1) →
  ¬ exists_in w (st_fs s1) (Path i) →
  stat w (st_fs s1) (Path i) ≠ NameTooLong →
  convert w self i o n s =
  (Ret false, printed s1 [input_missing_line i]).
Proof.
  intros H Hin Hlong. unfold convert. rewrite (bind_ret_l _ _ _ _ _ H). cbn [negb].
  by rewrite (bind_ret_l _ _ _ _ _ (path_exists_false _ _ _ Hin Hlong)).
Qed.

(** If the prerequisite check raises, so does [convert]. *)
Lemma convert_prereq_raises w self i o n s e s1 :
  check_prerequisites w self s = (Raise e, s1) →
  convert w self i o n s = (Raise e, s1).
Proof. intros H. unfold convert. by rewrite (bind_raise_l _ _ _ _ _ H). Qed.

(** If the existence test of the input file raises, so does [convert]. *)
Lemma convert_input_raises w self i o n s s1 :
  check_prerequisites w self s = (Ret (true, ""), s1) →
  stat w (st_fs s1) (Path i) = NameTooLong →
  convert w self i o n s = (Raise (too_long_error (Path i)), s1).
Proof.
  intros H Hlong. unfold convert. rewrite (bind_ret_l _ _ _ _ _ H). cbn [negb].
  by rewrite (bind_raise_l _ _ _ _ _ (path_exists_raises _ _ _ Hlong)).
Qed.

(** What [main] does in CLI mode with both paths given. *)
Lemma main_cli w help c i o s :
  cl_gui c = false →
  cl_input_file c = Some i → i ≠ "" →
  cl_output_dir c = Some o → o ≠ "" →
  main w help (Arguments c) s =
  (let* success := convert w (SPZConverter_init w (cl_project_root c)) i o
                     (default "content.glb" (cl_content_name c)) in
   ret (Exit (if success then 0 else 1))) s.
Proof.
  intros Hgui Hi Hine Ho Hone. unfold main, parse_args.
  cbn [gui input_file output_dir content_name ns_project_root].
  rewrite Hgui, Hi, Ho. cbn [truthy default].
  destruct i; [done|]. destruct o; [done|]. done.
Qed.

(** An exception that leaves [convert] leaves [main] as well. *)
Lemma main_cli_raises w help c i o s e s' :
  cl_gui c = false →
  cl_input_file c = Some i → i ≠ "" →
  cl_output_dir c = Some o → o ≠ "" →
  convert w (SPZConverter_init w (cl_project_root c)) i o
    (default "content.glb" (cl_content_name c)) s = (Raise e, s') →
  main w help (Arguments c) s = (Raise e, s').
Proof.
  intros Hgui Hi Hine Ho Hone Hconv.
  rewrite (main_cli w help c i o s) by done. unfold bind. by rewrite Hconv.
Qed.

(** If [mkdir] raises, so does [convert]. *)
Lemma convert_mkdir_raises w self i o n s s1 e s2 :
  check_prerequisites w self s = (Ret (true, ""), s1) →
  exists_in w (st_fs s1) (Path i) →
  mkdir w (Path o) true true s1 = (Raise e, s2) →
  convert w self i o n s = (Raise e, s2).
Proof.
  intros Hpre Hin Hmk. unfold convert.
  rewrite (bind_ret_l _ _ _ _ _ Hpre). cbn [negb].
  rewrite (bind_ret_l _ _ _ _ _ (path_exists_true _ _ _ Hin)). cbn [negb].
  by rewrite (bind_raise_l _ _ _ _ _ Hmk).
Qed.

(* ===================================================================== *)
(** ** Making directories *)
(* ===================================================================== *)

Lemma node_at_insert_dir f loc x :
  node_at f x = Some Dir → node_at (<[loc:=Dir]> f) x = Some Dir.
Proof.
  destruct x as [|c x]; [done|]. cbn [node_at]. intros H.
  destruct (decide (loc = c :: x)) as [->|Hne].
  - by rewrite lookup_insert_eq.
  - by rewrite lookup_insert_ne.
Qed.

Lemma node_at_insert_eq f loc :
  node_at (<[loc:=Dir]> f) loc = Some Dir.
Proof. destruct loc; [done|]. cbn. by rewrite lookup_insert_eq. Qed.

(** Once the missing last name is made a directory, the path resolves to it. *)
Lemma walk_insert_absent f cur comps loc :
  walk f cur comps = Absent loc →
  walk (<[loc:=Dir]> f) cur comps = Found loc Dir.
Proof.
  revert cur. induction comps as [|c rest IH]; intros cur; cbn [walk].
  - by destruct (node_at f cur).
  - destruct (node_at f cur) as [[]|] eqn:Hcur; try done.
    rewrite (node_at_insert_dir _ _ _ Hcur).
    destruct (name_too_long c); [done|].
    destruct rest as [|c' rest].
    + destruct (node_at f (step cur c)) eqn:Hn; [done|].
      intros [= <-]. by rewrite node_at_insert_eq.
    + apply IH.
Qed.

(** A path that [stat] resolves has passed the tests on its text. *)
Lemma stat_walk w f p :
  stat w f p ≠ NulByte → stat w f p ≠ NameTooLong →
  stat w f p = walk f (anchor w p) (parts p).
Proof.
  unfold stat. destruct (has_nul (path_str p)); [done|].
  by destruct (PATH_MAX <=? String.length (path_str p))%nat.
Qed.


Lemma stat_insert_absent w f p loc :
  stat w f p = Absent loc → stat w (<[loc:=Dir]> f) p = Found loc Dir.
Proof.
  unfold stat. destruct (has_nul (path_str p)); [done|].
  destruct (PATH_MAX <=? String.length (path_str p))%nat; [done|].
  apply walk_insert_absent.
Qed.

Lemma os_mkdir_inv w p s s' :
  os_mkdir w p s = (Ret tt, s') →
  ∃ loc, stat w (st_fs s) p = Absent loc ∧
         s' = {| st_fs := <[loc:=Dir]> (st_fs s); st_out := st_out s;
                 st_calls := st_calls s |}.
Proof.
  unfold os_mkdir. destruct (stat w (st_fs s) p) eqn:E; try done.
  intros [= <-]. by eexists.
Qed.

(** When [os.mkdir] raises it has changed nothing. *)
Lemma os_mkdir_raise_inv w p s e s' : os_mkdir w p s = (Raise e, s') → s' = s.
Proof. unfold os_mkdir. by destruct (stat w (st_fs s) p); intros [= _ <-]. Qed.

(** After [os.mkdir] the path is a directory; nothing is printed or run. *)
Lemma os_mkdir_is_dir w p s s' :
  os_mkdir w p s = (Ret tt, s') →
  is_dir_in w (st_fs s') p ∧ st_out s' = st_out s ∧ st_calls s' = st_calls s.
Proof.
  intros (loc & Hst & ->)%os_mkdir_inv. cbn. split; [|done].
  exists loc. by apply stat_insert_absent.
Qed.

Lemma is_dir_inv w p s r s' :
  is_dir w p s = (r, s') →
  s' = s ∧ (r = Ret true → is_dir_in w (st_fs s) p).
Proof.
  unfold is_dir, is_dir_in. destruct (stat w (st_fs s) p) as [loc []| | | | |] eqn:E;
    intros [= <- <-]; split; try done; eauto.
Qed.

(** The clause [except OSError] with [exist_ok=True] lets the error pass
    only where the path is a directory. *)
Lemma mkdir_except_OSError_inv w p e s s' :
  mkdir_except_OSError w true p e s = (Ret tt, s') →
  s' = s ∧ is_dir_in w (st_fs s) p.
Proof.
  unfold mkdir_except_OSError, bind. cbn [negb].
  destruct (is_dir w p s) as [[[]|e'] s1] eqn:Hd; try done.
  apply is_dir_inv in Hd as [-> Hdir]. intros [= <-]. auto.
Qed.

(** [mkdir(parents=False, exist_ok=True)], when it returns. *)
Lemma mkdir_leaf_is_dir w p s s' :
  mkdir_leaf w true p s = (Ret tt, s') →
  is_dir_in w (st_fs s') p ∧ st_out s' = st_out s ∧ st_calls s' = st_calls s.
Proof.
  unfold mkdir_leaf, try_except.
  destruct (os_mkdir w p s) as [[[]|e] s1] eqn:Hos.
  - intros [= <-]. by apply os_mkdir_is_dir.
  - apply os_mkdir_raise_inv in Hos as ->.
    destruct e; try done; by intros [-> Hdir]%mkdir_except_OSError_inv.
Qed.

(** [mkdir(parents=True, exist_ok=True)], when it returns, leaves the path
    a directory; it prints nothing and runs nothing. *)
Lemma mkdir_parents_is_dir w rt rtail s s' :
  mkdir_parents w rt rtail true s = (Ret tt, s') →
  is_dir_in w (st_fs s') {| root := rt; parts := rev rtail |} ∧
  st_out s' = st_out s ∧ st_calls s' = st_calls s.
Proof.
  revert s s'. induction rtail as [|c rparent IH]; intros s s';
    cbn [mkdir_parents]; unfold try_except;
    set (p := {| root := rt; parts := _ |});
    (destruct (os_mkdir w p s) as [[[]|e] s1] eqn:Hos;
      [ intros [= <-]; by apply os_mkdir_is_dir | ]);
    apply os_mkdir_raise_inv in Hos as ->.
  - destruct e; try done; by intros [-> Hdir]%mkdir_except_OSError_inv.
  - destruct e; try done; try by intros [-> Hdir]%mkdir_except_OSError_inv.
    unfold bind at 1.
    destruct (mkdir_parents w rt rparent true s) as [[[]|e] s1] eqn:Hpar; [|done].
    intros Hleaf. apply IH in Hpar as (_ & Ho & Hc).
    apply mkdir_leaf_is_dir in Hleaf as (Hd & Ho' & Hc').
    split; [done|]. split; congruence.
Qed.

Lemma path_eta (p : PurePath) :
  {| root := root p; parts := rev (rev (parts p)) |} = p.
Proof. destruct p. cbn. by rewrite rev_involutive. Qed.

(** [Path(p).mkdir(parents=True, exist_ok=True)], when it returns. *)
Lemma mkdir_ensures w p s s' :
  mkdir w p true true s = (Ret tt, s') →
  is_dir_in w (st_fs s') p ∧ st_out s' = st_out s ∧ st_calls s' = st_calls s.
Proof.
  unfold mkdir. intros H%mkdir_parents_is_dir. by rewrite path_eta in H.
Qed.



(* ===================================================================== *)
(** ** Histories *)
(* ===================================================================== *)

(** When the prerequisites pass, all four checks were carried out: the
    version query is the one call made, and nothing is printed. *)
Lemma check_prerequisites_ok_inv w self s msg s1 :
  check_prerequisites w self s = (Ret (true, msg), s1) →
  msg = "" ∧ s1 = after_run w [mvn_cmd w; "--version"] None 30 s ∧
  ∀ c, check_result w (st_fs s) c = None.
Proof.
  rewrite check_prerequisites_refines.
  destruct (exists_check_raises w (st_fs s)); [done|].
  unfold check_prerequisites_spec, stated_order. cbn [first_failure performed].
  destruct (check_result w (st_fs s) BuildTool) eqn:H1; [done|].
  destruct (check_result w (st_fs s) RuntimeHome) eqn:H2; [done|].
  destruct (check_result w (st_fs s) RuntimeExecutable) eqn:H3; [done|].
  destruct (check_result w (st_fs s) SelfTest) eqn:H4; [done|].
  rewrite decide_True by elem_of_concrete.
  intros [= <- <-]. repeat split. intros []; assumption.
Qed.

Lemma first_failure_sound w f cs c d :
  first_failure w f cs = Some (c, d) → c ∈ cs ∧ check_result w f c = Some d.
Proof.
  induction cs as [|c0 cs IH]; [done|]. cbn [first_failure].
  destruct (check_result w f c0) eqn:H0.
  - intros [= <- <-]. split; [apply list_elem_of_here | done].
  - intros (? & ?)%IH. split; [by apply list_elem_of_further | done].
Qed.

Lemma first_failure_complete w f cs c :
  c ∈ cs → is_Some (check_result w f c) → is_Some (first_failure w f cs).
Proof.
  induction cs as [|c0 cs IH]; [by intros ?%elem_of_nil|].
  intros [->|Hin]%elem_of_cons Hc; cbn [first_failure].
  - destruct Hc as [d ->]. by eexists.
  - destruct (check_result w f c0); [by eexists | by apply IH].
Qed.

(** Every diagnostic names the check that produced it. *)
Lemma diagnosed_check_result w f c d :
  check_result w f c = Some d → diagnosed d = Some c.
Proof.
  destruct c; cbn [check_result].
  - destruct (truthy _); [done|]. intros [= <-]. reflexivity.
  - destruct (truthy _); [done|]. intros [= <-]. reflexivity.
  - destruct (stat _ _ _); intros [= <-];
      unfold diagnosed, msg_no_java_exe; by cbn.
  - destruct (self_test_failure w f); [|done]. intros [= <-].
    unfold diagnosed, msg_maven_test; by cbn.
Qed.

(** Up to the [try] statement nothing is printed, and the version query is
    the one call made. *)
Lemma reaches_launch_history w self i o s s2 :
  reaches_launch w self i o s s2 →
  st_out s2 = st_out s ∧
  st_calls s2 = (st_calls s ++ [version_call w (st_fs s)])%list ∧
  is_dir_in w (st_fs s2) (Path o).
Proof.
  intros (s1 & Hpre & _ & Hmk).
  apply check_prerequisites_ok_inv in Hpre as (_ & -> & _).
  apply mkdir_ensures in Hmk as (Hd & -> & ->). done.
Qed.

(** [convert] from the [try] statement on: the result and the printed
    lines are those of [report], and the history of calls ends with the
    version query and the conversion call. *)
Lemma convert_at_launch w self i o n s s2 :
  reaches_launch w self i o s s2 →
  let cmd := conversion_cmd w self i o n in
  let r := report o n (behaviour w cmd (Some (project_root self)) (st_fs s2)) in
  ∃ s',
    convert w self i o n s = (Ret (fst r), s') ∧
    st_out s' = (st_out s ++ progress_lines i o cmd ++ snd r)%list ∧
    st_calls s' = (st_calls s ++ [version_call w (st_fs s);
                                  conversion_call w self i o n (st_fs s2)])%list.
Proof.
  intros Hreach cmd r.
  rewrite (convert_reaches _ _ _ _ _ _ _ Hreach), run_conversion_spec.
  apply reaches_launch_history in Hreach as (Ho & Hc & _).
  eexists. split; [done|]. cbn. rewrite Ho, Hc, <- !app_assoc. done.
Qed.

(* ===================================================================== *)
(** ** Strings and paths *)
(* ===================================================================== *)

Lemma append_empty_r (x : string) : x ++ "" = x.
Proof.
  induction x as [|a x IH]; [done|].
  change (String a (x ++ "") = String a x). by f_equal.
Qed.

Lemma append_assoc (a b c : string) : (a ++ b) ++ c = a ++ b ++ c.
Proof.
  induction a as [|x a IH]; [done|].
  change (String x ((a ++ b) ++ c) = String x (a ++ b ++ c)). by f_equal.
Qed.

Lemma nonempty_true x : x ≠ "" → nonempty x = true.
Proof. by destruct x. Qed.

Lemma reported_suffix lines pre x : pre ++ x ∈ lines → reported lines x.
Proof. intros H. exists (pre ++ x), pre, "". by rewrite append_empty_r. Qed.

Lemma reported_empty lines line : line ∈ lines → reported lines "".
Proof. intros H. exists line, line, "". cbn. by rewrite append_empty_r. Qed.

(** A resolved path is absolute, and its text starts with a slash. *)
Lemma resolve_absolute w s :
  is_absolute (resolve w (Path s)) = true ∧
  starts_with "/" (path_str (resolve w (Path s))) = true.
Proof.
  split; [done|]. unfold resolve, path_str. cbn [root parts]. done.
Qed.

Lemma split_slash_no_slash n : no_slash n = true → split_slash n = [n].
Proof.
  induction n as [|c r IH]; [done|]. cbn [no_slash split_slash].
  intros [Hc Hr]%andb_true_iff. apply negb_true_iff in Hc. rewrite Hc.
  by rewrite (IH Hr).
Qed.

(** Joining a plain file name adds one component, so the parent of the
    joined path is the directory. *)
Lemma joinpath_file_name p n :
  file_name n → p // n = {| root := root p; parts := (parts p ++ [n])%list |}.
Proof.
  intros (Hne & Hdot & _ & Hslash). unfold joinpath, Path. cbn [root parts].
  rewrite (split_slash_no_slash n Hslash).
  assert (splitroot n = "") as ->.
  { destruct n as [|c r]; [done|]. cbn [no_slash] in Hslash.
    apply andb_true_iff in Hslash as [Hc%negb_true_iff _].
    unfold splitroot. destruct c as [[] [] [] [] [] [] [] []]; try done. }
  cbn [String.eqb]. by rewrite filter_cons_True, filter_nil.
Qed.

Lemma path_parent_joinpath o n :
  file_name n → path_parent (Path o // n) = Path o.
Proof.
  intros Hn. rewrite (joinpath_file_name _ _ Hn). unfold path_parent.
  cbn [root parts]. by rewrite removelast_last.
Qed.

Lemma file_name_tileset : file_name "tileset.json".
Proof. by repeat split. Qed.

(** Two strings differ when one starts with [pre] and the other does not. *)
Ltac differ_by pre H :=
  apply (f_equal (starts_with pre)) in H; vm_compute in H; discriminate H.

Lemma timeout_line_not_progress i o cmd : timeout_line ∉ progress_lines i o cmd.
Proof.
  unfold progress_lines. intros H.
  apply elem_of_cons in H as [H|H]; [differ_by "C" H|].
  apply elem_of_cons in H as [H|H]; [differ_by "R" H|].
  by apply elem_of_nil in H.
Qed.

Lemma timeout_line_not_failure rc out err : timeout_line ∉ failure_lines rc out err.
Proof.
  unfold failure_lines. intros H.
  apply elem_of_cons in H as [H|H]; [differ_by "✗ Conversion t" H|].
  apply elem_of_cons in H as [H|H]; [differ_by "R" H|].
  apply elem_of_app in H as [H|H].
  - destruct (nonempty out); [|by apply elem_of_nil in H].
    apply elem_of_cons in H as [H|H]; [differ_by "S" H|]. by apply elem_of_nil in H.
  - destruct (nonempty err); [|by apply elem_of_nil in H].
    apply elem_of_cons in H as [H|H]; [differ_by "E" H|]. by apply elem_of_nil in H.
Qed.

Lemma timeout_line_not_not_found m : timeout_line ≠ not_found_line (FileNotFoundError m).
Proof. intros H. differ_by "✗ Conversion t" H. Qed.

(** A regular file at the path makes [mkdir(parents=True, exist_ok=True)]
    raise [FileExistsError]. *)
Lemma mkdir_on_file w p s loc :
  stat w (st_fs s) p = Found loc File →
  mkdir w p true true s =
  (Raise (FileExistsError (errno_msg "[Errno 17] File exists" p)), s).
Proof.
  intros Hst. unfold mkdir.
  destruct (rev (parts p)) as [|c rparent] eqn:Hrev;
    cbn [mkdir_parents]; rewrite <- Hrev, path_eta; unfold try_except, os_mkdir;
    rewrite Hst; unfold mkdir_except_OSError, bind, is_dir; cbn [negb];
    by rewrite Hst.
Qed.

(* ===================================================================== *)
(** ** Path resolution, one component at a time *)
(* ===================================================================== *)

Open Scope list_scope.

(** Resolution of a path with one more component. *)
Lemma walk_snoc f cur init c :
  walk f cur (init ++ [c]) =
  match walk f cur init with
  | Found loc Dir =>
      if name_too_long c then NameTooLong else
      match node_at f (step loc c) with
      | Some n => Found (step loc c) n
      | None => Absent (step loc c)
      end
  | Found _ File => NotDir
  | Absent _ => NoEnt
  | NoEnt => NoEnt
  | NotDir => NotDir
  | NameTooLong => NameTooLong
  | NulByte => NulByte
  end.
Proof.
  revert cur. induction init as [|c0 rest0 IH]; intros cur.
  - cbn. destruct (node_at f cur) as [[]|]; try done.
  - cbn [app walk]. destruct (node_at f cur) as [[]|] eqn:Hcur; try done.
    destruct (name_too_long c0); [done|].
    destruct rest0 as [|c1 r].
    + cbn. by destruct (node_at f (step cur c0)) as [[]|].
    + cbn [app]. rewrite <- IH. done.
Qed.



Lemma node_at_insert_fresh f loc x n :
  node_at f loc = None → node_at f x = Some n →
  node_at (<[loc:=Dir]> f) x = Some n.
Proof.
  intros Hloc Hx. destruct x as [|c x]; [done|]. cbn [node_at] in *.
  rewrite lookup_insert_ne; [done|]. intros ->. cbn in Hloc. congruence.
Qed.

Lemma node_at_insert_file f loc x :
  node_at (<[loc:=Dir]> f) x = Some File → node_at f x = Some File.
Proof.
  destruct x as [|c x]; [done|]. cbn [node_at].
  destruct (decide (loc = c :: x)) as [->|Hne].
  - by rewrite lookup_insert_eq.
  - by rewrite lookup_insert_ne.
Qed.

Open Scope string_scope.

(* ===================================================================== *)
(** ** The checks where the existence tests answer *)
(* ===================================================================== *)

(** Where the existence test of the third check answers,
    [check_prerequisites] stops at the first check that fails: a failing
    check [c] all of whose predecessors pass decides the result, whatever
    the checks after it would say, and the version query has been run only
    if [c] is the self test.  When all four pass the result is success, and
    the version query has been run. *)
Lemma first_failing_check_decides w self s :
  exists_check_raises w (st_fs s) = false →
  (∀ c d,
     check_result w (st_fs s) c = Some d →
     (∀ c', (rank c' < rank c)%nat → check_result w (st_fs s) c' = None) →
     check_prerequisites w self s =
     (Ret (false, d),
      if decide (c = SelfTest)
      then after_run w [mvn_cmd w; "--version"] None 30 s
      else s)) ∧
  ((∀ c, check_result w (st_fs s) c = None) →
   check_prerequisites w self s =
   (Ret (true, ""), after_run w [mvn_cmd w; "--version"] None 30 s)).
Proof.
  intros Hanswers. rewrite check_prerequisites_refines, Hanswers.
  unfold check_prerequisites_spec, stated_order. split.
  - intros c d Hc Hbefore. cbn [first_failure performed].
    destruct c; cbn [rank] in Hbefore.
    + rewrite Hc. rewrite decide_False by elem_of_concrete.
      by rewrite decide_False.
    + rewrite (Hbefore BuildTool), Hc by (cbn; lia).
      rewrite decide_False by elem_of_concrete. by rewrite decide_False.
    + rewrite (Hbefore BuildTool), (Hbefore RuntimeHome), Hc by (cbn; lia).
      rewrite decide_False by elem_of_concrete. by rewrite decide_False.
    + rewrite (Hbefore BuildTool), (Hbefore RuntimeHome),
        (Hbefore RuntimeExecutable), Hc by (cbn; lia).
      rewrite decide_True by elem_of_concrete. by rewrite decide_True.
  - intros Hall. cbn [first_failure performed]. rewrite !Hall.
    by rewrite decide_True by elem_of_concrete.
Qed.

(** Where the existence test of the third check answers, a failing check
    makes [check_prerequisites] return a diagnostic that names a check
    which did fail; [convert] prints it and returns [False], and the only
    call it can have made is the version query. *)
Lemma failing_check_stops_convert w self i o n s c :
  exists_check_raises w (st_fs s) = false →
  is_Some (check_result w (st_fs s) c) →
  ∃ c' d s1,
    check_result w (st_fs s) c' = Some d ∧
    diagnosed d = Some c' ∧
    check_prerequisites w self s = (Ret (false, d), s1) ∧
    convert w self i o n s =
      (Ret false, printed s1 [prerequisites_failed_line d]) ∧
    (st_calls s1 = st_calls s ∨
     st_calls s1 = (st_calls s ++ [version_call w (st_fs s)])%list).
Proof.
  intros Hanswers Hc.
  assert (c ∈ stated_order) as Hin by (destruct c; elem_of_concrete).
  destruct (first_failure_complete w _ _ _ Hin Hc) as [[c' d] Hff].
  pose proof (check_prerequisites_refines w self s) as Hpre.
  rewrite Hanswers in Hpre.
  unfold check_prerequisites_spec in Hpre. rewrite Hff in Hpre.
  apply first_failure_sound in Hff as (_ & Hd).
  eexists c', d, _. split; [done|]. split; [by eapply diagnosed_check_result|].
  split; [exact Hpre|]. split; [by apply convert_prereq_failed|].
  case_decide; eauto.
Qed.

(** Where the existence test of the input path answers [False],
    [convert] prints one line and returns [False]; the history of calls
    holds the version query of the prerequisite check and nothing else, and
    the file system is left as the check left it. *)
Lemma missing_input_returns_false w self i o n s s1 :
  check_prerequisites w self s = (Ret (true, ""), s1) →
  ¬ exists_in w (st_fs s1) (Path i) →
  stat w (st_fs s1) (Path i) ≠ NameTooLong →
  ∃ s',
    convert w self i o n s = (Ret false, s') ∧
    st_out s' = (st_out s ++ [input_missing_line i])%list ∧
    st_calls s' = (st_calls s ++ [version_call w (st_fs s)])%list ∧
    st_fs s' = st_fs s1.
Proof.
  intros Hpre Hin Hlong. eexists. split; [by apply convert_input_missing|].
  apply check_prerequisites_ok_inv in Hpre as (_ & -> & _). done.
Qed.

(** The third check is reached when the first two pass. *)
Lemma exists_check_raises_true w f :
  truthy (which w (mvn_cmd w)) = true →
  truthy (environ w !! "JAVA_HOME") = true →
  stat w f (expected_java_exe w) = NameTooLong →
  exists_check_raises w f = true.
Proof. intros H1 H2 H3. unfold exists_check_raises. by rewrite H1, H2, H3. Qed.

Lemma check_prerequisites_raises w self s :
  exists_check_raises w (st_fs s) = true →
  check_prerequisites w self s = (Raise (too_long_error (expected_java_exe w)), s).
Proof. intros H. by rewrite check_prerequisites_refines, H. Qed.

(* ===================================================================== *)
(** ** The file system only gains directories *)
(* ===================================================================== *)

Lemma only_adds_dirs_refl f : only_adds_dirs f f.
Proof. by split. Qed.

Lemma only_adds_dirs_trans f1 f2 f3 :
  only_adds_dirs f1 f2 → only_adds_dirs f2 f3 → only_adds_dirs f1 f3.
Proof. intros [H1 H2] [H3 H4]. split; eauto. Qed.

Lemma dirs_added_refl s : dirs_added s s.
Proof. split; [apply only_adds_dirs_refl | done]. Qed.

Lemma dirs_added_trans s1 s2 s3 :
  dirs_added s1 s2 → dirs_added s2 s3 → dirs_added s1 s3.
Proof.
  intros (Hf & Ho & Hc) (Hf' & Ho' & Hc').
  split; [by eapply only_adds_dirs_trans|]. split; congruence.
Qed.

(** A missing last name is missing. *)
Lemma walk_absent_none f cur comps loc :
  walk f cur comps = Absent loc → node_at f loc = None.
Proof.
  destruct comps as [|c comps _] using rev_ind.
  - cbn. by destruct (node_at f cur).
  - rewrite walk_snoc. destruct (walk f cur comps) as [l []| | | | |]; try done.
    destruct (name_too_long c); [done|].
    destruct (node_at f (step l c)) eqn:E; [done|]. by intros [= <-].
Qed.

Lemma stat_absent_none w f p loc : stat w f p = Absent loc → node_at f loc = None.
Proof.
  intros H. eapply walk_absent_none. rewrite <- stat_walk; [done|congruence..].
Qed.

Lemma only_adds_dirs_insert f loc :
  node_at f loc = None → only_adds_dirs f (<[loc:=Dir]> f).
Proof.
  intros Hloc. split.
  - intros x n. by apply node_at_insert_fresh.
  - apply node_at_insert_file.
Qed.

Lemma adds_dirs_only_ret {A} (a : A) : adds_dirs_only (ret a).
Proof. intros s. apply dirs_added_refl. Qed.

Lemma adds_dirs_only_raise {A} e : adds_dirs_only (@raise A e).
Proof. intros s. apply dirs_added_refl. Qed.

Lemma adds_dirs_only_bind {A B} (m : M A) (k : A → M B) :
  adds_dirs_only m → (∀ a, adds_dirs_only (k a)) → adds_dirs_only (bind m k).
Proof.
  intros Hm Hk s. unfold bind. specialize (Hm s).
  destruct (m s) as [[a|e] s1]; cbn [snd] in *; [|done].
  eapply dirs_added_trans; [done | apply Hk].
Qed.

Lemma adds_dirs_only_try_except {A} (body : M A) (handler : exn → M A) :
  adds_dirs_only body → (∀ e, adds_dirs_only (handler e)) →
  adds_dirs_only (try_except body handler).
Proof.
  intros Hm Hh s. unfold try_except. specialize (Hm s).
  destruct (body s) as [[a|e] s1]; cbn [snd] in *; [done|].
  eapply dirs_added_trans; [done | apply Hh].
Qed.

Lemma adds_dirs_only_is_dir w p : adds_dirs_only (is_dir w p).
Proof.
  intros s. unfold is_dir.
  destruct (stat w (st_fs s) p) as [loc []| | | | |]; apply dirs_added_refl.
Qed.

Lemma adds_dirs_only_os_mkdir w p : adds_dirs_only (os_mkdir w p).
Proof.
  intros s. unfold os_mkdir.
  destruct (stat w (st_fs s) p) as [loc n|loc| | | |] eqn:Hst;
    try apply dirs_added_refl.
  split; [|done]. cbn. apply only_adds_dirs_insert. by eapply stat_absent_none.
Qed.

Ltac adds_dirs_only_step :=
  first
    [ apply adds_dirs_only_ret | apply adds_dirs_only_raise
    | apply adds_dirs_only_is_dir | apply adds_dirs_only_os_mkdir
    | apply adds_dirs_only_bind; [|intros ?]
    | apply adds_dirs_only_try_except; [|intros ?]
    | match goal with
      | |- adds_dirs_only (if ?c then _ else _) => destruct c
      | |- adds_dirs_only (match ?x with _ => _ end) => destruct x
      end ].

Lemma adds_dirs_only_mkdir_except_OSError w exist_ok p e :
  adds_dirs_only (mkdir_except_OSError w exist_ok p e).
Proof. unfold mkdir_except_OSError. repeat adds_dirs_only_step. Qed.

Lemma adds_dirs_only_mkdir_leaf w exist_ok p : adds_dirs_only (mkdir_leaf w exist_ok p).
Proof.
  unfold mkdir_leaf. repeat adds_dirs_only_step.
  all: apply adds_dirs_only_mkdir_except_OSError.
Qed.

Lemma adds_dirs_only_mkdir_parents w rt rtail exist_ok :
  adds_dirs_only (mkdir_parents w rt rtail exist_ok).
Proof.
  revert exist_ok. induction rtail as [|c rparent IH]; intros exist_ok;
    cbn [mkdir_parents]; repeat adds_dirs_only_step.
  all: first [apply IH | apply adds_dirs_only_mkdir_leaf
             | apply adds_dirs_only_mkdir_except_OSError].
Qed.

(** Whatever [Path.mkdir] does, returning or raising, it only adds
    directories. *)
Lemma adds_dirs_only_mkdir w p parents exist_ok :
  adds_dirs_only (mkdir w p parents exist_ok).
Proof.
  unfold mkdir. destruct parents;
    [apply adds_dirs_only_mkdir_parents | apply adds_dirs_only_mkdir_leaf].
Qed.


(* ===================================================================== *)
(** ** Making the missing ancestors *)
(* ===================================================================== *)

Open Scope list_scope.














(** The three ways [os.mkdir] can go inside [Path.mkdir] with
    [exist_ok=True], whatever is done about [FileNotFoundError]. *)
Section TryMkdir.
Variables (w : World) (p : PurePath) (k : exn → M unit).

Local Abbreviation attempt :=
  (try_except (os_mkdir w p) (fun e =>
     match e with
     | FileNotFoundError _ => k e
     | FileExistsError _ | NotADirectoryError _ | OSError _ =>
         mkdir_except_OSError w true p e
     | TimeoutExpired _ _ | ValueError _ | OtherException _ => raise e
     end)).



End TryMkdir.







Open Scope string_scope.

(* ===================================================================== *)
(** ** The properties of the specification *)
(* ===================================================================== *)

(** C5.  [check_prerequisites] does not always return the diagnostic of
    the first failing check.  When the build tool is on the search path
    and the runtime-home variable is set, the third check is the first
    that can fail; where the expected path of the runtime executable holds
    a name that is too long, no executable is there, so that the check
    fails and section 4.1 prescribes its diagnostic, but the existence
    test, which stands outside the [try] statement, raises [OSError]:
    [check_prerequisites] raises it, returns no diagnostic, and does not
    get to the version query. *)
Theorem first_failing_check_can_raise w self s :
  (∀ c', (rank c' < rank RuntimeExecutable)%nat →
         check_result w (st_fs s) c' = None) →
  stat w (st_fs s) (expected_java_exe w) = NameTooLong →
  first_failure w (st_fs s) stated_order =
    Some (RuntimeExecutable, msg_no_java_exe (expected_java_exe w)) ∧
  check_prerequisites_spec w (st_fs s) =
    (false, msg_no_java_exe (expected_java_exe w)) ∧
  check_prerequisites w self s =
    (Raise (too_long_error (expected_java_exe w)), s).
Proof.
  intros Hbefore Hlong.
  pose proof (Hbefore BuildTool) as Htool.
  pose proof (Hbefore RuntimeHome) as Hhome.
  cbn [rank check_result] in Htool, Hhome.
  destruct (truthy (which w (mvn_cmd w))) eqn:Hwhich;
    [|by discriminate Htool; lia].
  destruct (truthy (environ w !! "JAVA_HOME")) eqn:Hvar;
    [|by discriminate Hhome; lia].
  assert (first_failure w (st_fs s) stated_order =
          Some (RuntimeExecutable, msg_no_java_exe (expected_java_exe w))) as Hff.
  { unfold stated_order. cbn [first_failure check_result].
    by rewrite Hwhich, Hvar, Hlong. }
  split; [exact Hff|]. split.
  - unfold check_prerequisites_spec. by rewrite Hff.
  - apply check_prerequisites_raises. by apply exists_check_raises_true.
Qed.

(** C4.  Not every missing-prerequisite scenario ends in a returned
    failure.  With the build tool on the search path and the runtime-home
    variable set to a directory under which the expected path of the
    runtime executable holds a name that is too long, the executable is
    absent, but the existence test raises [OSError] where it should answer:
    [check_prerequisites] raises instead of returning the diagnostic,
    [convert] raises instead of printing it and returning [False], and in
    CLI mode [main] raises as well.  Nothing is printed and no command is
    run. *)
Theorem missing_java_exe_escapes_convert w self i o n s :
  truthy (which w (mvn_cmd w)) = true →
  truthy (environ w !! "JAVA_HOME") = true →
  stat w (st_fs s) (expected_java_exe w) = NameTooLong →
  let e := too_long_error (expected_java_exe w) in
  ¬ exists_in w (st_fs s) (expected_java_exe w) ∧
  check_prerequisites w self s = (Raise e, s) ∧
  convert w self i o n s = (Raise e, s) ∧
  ∀ help c,
    cl_gui c = false →
    cl_input_file c = Some i → i ≠ "" →
    cl_output_dir c = Some o → o ≠ "" →
    SPZConverter_init w (cl_project_root c) = self →
    default "content.glb" (cl_content_name c) = n →
    main w help (Arguments c) s = (Raise e, s).
Proof.
  intros Hwhich Hvar Hlong e.
  assert (check_prerequisites w self s = (Raise e, s)) as Hpre.
  { apply check_prerequisites_raises. by apply exists_check_raises_true. }
  assert (convert w self i o n s = (Raise e, s)) as Hconv
    by by apply convert_prereq_raises.
  split; [by apply not_exists_too_long|]. split; [exact Hpre|].
  split; [exact Hconv|].
  intros help c Hgui Hi Hine Ho Hone Hself Hname.
  eapply main_cli_raises; [done..|]. by rewrite Hself, Hname.
Qed.

(** C6.  Not every input path that does not exist makes [convert] return
    [False].  With the prerequisites passing, an input path that holds a
    name that is too long names nothing that exists, but its existence
    test, which stands before the [try] statement, raises [OSError]:
    [convert] raises it with nothing printed, and in CLI mode [main] raises
    as well.  The conversion command is not run: the version query is the
    one call made. *)
Theorem overlong_input_escapes_convert w self i o n s s1 :
  check_prerequisites w self s = (Ret (true, ""), s1) →
  stat w (st_fs s1) (Path i) = NameTooLong →
  let e := too_long_error (Path i) in
  ¬ exists_in w (st_fs s1) (Path i) ∧
  convert w self i o n s = (Raise e, s1) ∧
  st_out s1 = st_out s ∧
  st_calls s1 = (st_calls s ++ [version_call w (st_fs s)])%list ∧
  ∀ help c,
    cl_gui c = false →
    cl_input_file c = Some i → i ≠ "" →
    cl_output_dir c = Some o → o ≠ "" →
    SPZConverter_init w (cl_project_root c) = self →
    default "content.glb" (cl_content_name c) = n →
    main w help (Arguments c) s = (Raise e, s1).
Proof.
  intros Hpre Hlong e.
  assert (convert w self i o n s = (Raise e, s1)) as Hconv
    by by apply convert_input_raises.
  split; [by apply not_exists_too_long|]. split; [exact Hconv|].
  pose proof Hpre as (_ & -> & _)%check_prerequisites_ok_inv.
  split; [done|]. split; [done|].
  intros help c Hgui Hi Hine Ho Hone Hself Hname.
  eapply main_cli_raises; [done..|]. by rewrite Hself, Hname.
Qed.

(** C3.  When [convert] gets to run the external command and the command
    terminates within the 300 bound with exit status 0, [convert] returns
    [True], and after the two progress lines it prints the success lines,
    the last two of which are the output directory joined with
    ["tileset.json"] and with the content file name.  The first of these
    paths lies in the output directory, and so does the second for a
    content name that is a plain file name. *)
Theorem zero_exit_reports_outputs w self i o n s s2 d out err :
  reaches_launch w self i o s s2 →
  behaviour w (conversion_cmd w self i o n) (Some (project_root self)) (st_fs s2)
    = Terminates d 0 out err →
  d < 300 →
  (∃ s',
     convert w self i o n s = (Ret true, s') ∧
     st_out s' =
       (st_out s ++ progress_lines i o (conversion_cmd w self i o n) ++
        [ "✓ Conversion completed successfully!";
          "  Output files:";
          ("    - " ++ path_str (Path o // "tileset.json"))%string;
          ("    - " ++ path_str (Path o // n))%string ])%list) ∧
  path_parent (Path o // "tileset.json") = Path o ∧
  (file_name n → path_parent (Path o // n) = Path o).
Proof.
  intros Hreach Hb Hd.
  destruct (convert_at_launch w self i o n s s2 Hreach) as (s' & Hc & Ho & _).
  rewrite Hb in Hc, Ho. cbn [report] in Hc, Ho.
  apply Z.ltb_lt in Hd. rewrite Hd in Hc, Ho. cbn in Hc, Ho.
  split; [eauto|]. split.
  - apply path_parent_joinpath, file_name_tileset.
  - apply path_parent_joinpath.
Qed.

(** C8.  When the external command terminates within the bound with a
    non-zero exit status, [convert] returns [False], and the lines printed
    after the progress lines contain the exit code, the captured standard
    output and the captured error output. *)
Theorem nonzero_exit_reports_streams w self i o n s s2 d rc out err :
  reaches_launch w self i o s s2 →
  behaviour w (conversion_cmd w self i o n) (Some (project_root self)) (st_fs s2)
    = Terminates d rc out err →
  d < 300 →
  rc ≠ 0 →
  ∃ s' lines,
    convert w self i o n s = (Ret false, s') ∧
    st_out s' =
      (st_out s ++ progress_lines i o (conversion_cmd w self i o n) ++ lines)%list ∧
    ("Return code: " ++ pretty rc)%string ∈ lines ∧
    (out ≠ "" → ("Standard output: " ++ out)%string ∈ lines) ∧
    (err ≠ "" → ("Error output: " ++ err)%string ∈ lines) ∧
    reported lines (pretty rc) ∧ reported lines out ∧ reported lines err.
Proof.
  intros Hreach Hb Hd Hrc.
  destruct (convert_at_launch w self i o n s s2 Hreach) as (s' & Hc & Ho & _).
  rewrite Hb in Hc, Ho. cbn [report] in Hc, Ho.
  apply Z.ltb_lt in Hd. rewrite Hd in Hc, Ho.
  apply Z.eqb_neq in Hrc. rewrite Hrc in Hc, Ho. cbn [fst snd] in Hc, Ho.
  exists s', (failure_lines rc out err). split; [done|]. split; [done|].
  assert (("Return code: " ++ pretty rc)%string ∈ failure_lines rc out err) as Hcode.
  { unfold failure_lines. apply list_elem_of_further, list_elem_of_here. }
  assert (out ≠ "" → ("Standard output: " ++ out)%string ∈ failure_lines rc out err)
    as Hout.
  { intros Hne%nonempty_true. unfold failure_lines. rewrite Hne.
    do 2 apply list_elem_of_further. apply list_elem_of_here. }
  assert (err ≠ "" → ("Error output: " ++ err)%string ∈ failure_lines rc out err)
    as Herr.
  { intros Hne%nonempty_true. unfold failure_lines. rewrite Hne.
    do 2 apply list_elem_of_further. apply elem_of_app. right.
    apply list_elem_of_here. }
  repeat split; try done.
  - by eapply reported_suffix.
  - destruct (decide (out = "")) as [->|Hne].
    + by eapply reported_empty.
    + eapply reported_suffix. by apply Hout.
  - destruct (decide (err = "")) as [->|Hne].
    + by eapply reported_empty.
    + eapply reported_suffix. by apply Herr.
Qed.

(** C9.  When the external command does not return within the 300 bound,
    [convert] returns [False] and the last line it prints is the timeout
    line.  That line is printed in no other failure: not after a non-zero
    exit status, where the failure line is printed, and not when the
    command cannot be found, where the command-not-found line is printed. *)
Theorem timeout_reported_distinctly w self i o n s s2 :
  reaches_launch w self i o s s2 →
  let b := behaviour w (conversion_cmd w self i o n)
             (Some (project_root self)) (st_fs s2) in
  ∃ res s' lines,
    convert w self i o n s = (Ret res, s') ∧
    st_out s' = (st_out s ++ lines)%list ∧
    (exceeds_timeout b → res = false ∧ last lines = Some timeout_line) ∧
    (∀ d rc out err, b = Terminates d rc out err → d < 300 → rc ≠ 0 →
       res = false ∧ (timeout_line ∉ lines) ∧ failed_line ∈ lines) ∧
    (∀ m, b = RunRaises (FileNotFoundError m) →
       res = false ∧ (timeout_line ∉ lines) ∧
       not_found_line (FileNotFoundError m) ∈ lines).
Proof.
  intros Hreach b.
  destruct (convert_at_launch w self i o n s s2 Hreach) as (s' & Hc & Ho & _).
  fold b in Hc, Ho.
  set (cmd := conversion_cmd w self i o n) in *.
  exists (fst (report o n b)), s', (progress_lines i o cmd ++ snd (report o n b))%list.
  split; [done|]. split; [done|]. split; [|split].
  - intros Hexceeds.
    destruct b as [d rc out err| |e]; cbn in *; try done.
    apply Z.ltb_ge in Hexceeds. by rewrite Hexceeds.
  - intros d rc out err -> Hd%Z.ltb_lt Hrc%Z.eqb_neq.
    cbn [report]. rewrite Hd, Hrc. cbn [fst snd]. split; [done|]. split.
    + intros [Hin|Hin]%elem_of_app.
      * by apply timeout_line_not_progress in Hin.
      * by apply timeout_line_not_failure in Hin.
    + apply elem_of_app. right. apply list_elem_of_here.
  - intros m ->. cbn [report fst snd]. split; [done|]. split.
    + intros [Hin|Hin]%elem_of_app.
      * by apply timeout_line_not_progress in Hin.
      * apply list_elem_of_singleton in Hin.
        by apply timeout_line_not_not_found in Hin.
    + apply elem_of_app. right. apply list_elem_of_here.
Qed.

(** C2.  The command that [convert] runs is the launcher name of the
    platform ([mvn], or [mvn.cmd] where [os.name] is [nt]), [exec:java],
    the main class, one [-Dexec.args=] argument holding the resolved input
    path, the resolved output path and the content name separated by single
    spaces, [-pl], the module and [-q]; both resolved paths are absolute
    and their text starts with a slash;
    the working directory of the call is the project root of the converter
    and its bound is 300. *)
Theorem conversion_command_is_exec_java w root_arg i o n s s2 :
  let self := SPZConverter_init w root_arg in
  reaches_launch w self i o s s2 →
  ∃ res s',
    convert w self i o n s = (Ret res, s') ∧
    st_calls s' =
      (st_calls s ++
       [ version_call w (st_fs s);
         {| call_cmd :=
              [ if String.eqb (os_name w) "nt" then "mvn.cmd" else "mvn";
                "exec:java";
                "-Dexec.mainClass=de.javagl.jspz.examples.SpzToTileset";
                ("-Dexec.args=" ++ path_str (resolve w (Path i)) ++ " " ++
                   path_str (resolve w (Path o)) ++ " " ++ n)%string;
                "-pl"; "jspz-main"; "-q" ];
            call_cwd :=
              Some (if truthy root_arg then Path (default "" root_arg)
                    else path_parent (Path (script_file w)));
            call_timeout := 300;
            call_fs := st_fs s2 |} ])%list ∧
    is_absolute (resolve w (Path i)) = true ∧
    is_absolute (resolve w (Path o)) = true ∧
    starts_with "/" (path_str (resolve w (Path i))) = true ∧
    starts_with "/" (path_str (resolve w (Path o))) = true.
Proof.
  intros self Hreach.
  destruct (convert_at_launch w self i o n s s2 Hreach) as (s' & Hc & _ & Hcalls).
  eexists _, s'. split; [exact Hc|]. split; [exact Hcalls|].
  repeat split; apply resolve_absolute.
Qed.

(** C10.  In CLI mode with both positional arguments given and
    [--content-name] omitted, [main] calls [convert] with ["content.glb"];
    when the conversion command is run, its [-Dexec.args=] argument ends
    with that name, and after a zero exit status within the bound the exit
    code is 0 and the last line printed is the output directory joined with
    ["content.glb"]. *)
Theorem cli_default_content_name w help c i o s :
  cl_gui c = false →
  cl_input_file c = Some i → i ≠ "" →
  cl_output_dir c = Some o → o ≠ "" →
  cl_content_name c = None →
  let self := SPZConverter_init w (cl_project_root c) in
  main w help (Arguments c) s =
    (let* success := convert w self i o "content.glb" in
     ret (Exit (if success then 0 else 1))) s ∧
  ∀ s2, reaches_launch w self i o s s2 →
    ∃ code s',
      main w help (Arguments c) s = (Ret (Exit code), s') ∧
      last (st_calls s') =
        Some (conversion_call w self i o "content.glb" (st_fs s2)) ∧
      conversion_cmd w self i o "content.glb" !! 3%nat =
        Some ("-Dexec.args=" ++ path_str (resolve w (Path i)) ++ " " ++
                path_str (resolve w (Path o)) ++ " content.glb") ∧
      ∀ d out err,
        behaviour w (conversion_cmd w self i o "content.glb")
          (Some (project_root self)) (st_fs s2) = Terminates d 0 out err →
        d < 300 →
        code = 0 ∧
        last (st_out s') = Some ("    - " ++ path_str (Path o // "content.glb")).
Proof.
  intros Hgui Hi Hine Ho Hone Hname self.
  assert (main w help (Arguments c) s =
    (let* success := convert w self i o "content.glb" in
     ret (Exit (if success then 0 else 1))) s) as Hmain.
  { unfold main, parse_args. cbn [gui input_file output_dir content_name ns_project_root].
    rewrite Hgui, Hi, Ho, Hname. cbn [truthy default].
    destruct i; [done|]. destruct o; [done|]. done. }
  split; [exact Hmain|]. intros s2 Hreach.
  destruct (convert_at_launch w self i o "content.glb" s s2 Hreach)
    as (s' & Hc & Hout & Hcalls).
  rewrite Hmain. unfold bind. rewrite Hc.
  eexists _, s'. split; [done|]. split.
  { rewrite Hcalls. by rewrite last_app. }
  split; [done|].
  intros d out err Hb Hd%Z.ltb_lt.
  rewrite Hb in Hout |- *. cbn [report] in Hout |- *. rewrite Hd in Hout |- *.
  cbn [Z.eqb fst snd] in Hout |- *. split; [done|].
  rewrite Hout. unfold success_lines. by rewrite !last_app.
Qed.

(** C1.  [convert] does not return a boolean for every outcome of the
    directory creation: when the prerequisites pass, the input file exists
    and the output path names an existing regular file, the
    [FileExistsError] of [mkdir], which is called before the [try]
    statement, leaves [convert] as an exception, with nothing printed; in
    CLI mode it leaves [main] as well. *)
Theorem convert_raises_when_output_is_a_file w self i o n s s1 loc :
  check_prerequisites w self s = (Ret (true, ""), s1) →
  exists_in w (st_fs s1) (Path i) →
  stat w (st_fs s1) (Path o) = Found loc File →
  let e := FileExistsError (errno_msg "[Errno 17] File exists" (Path o)) in
  convert w self i o n s = (Raise e, s1) ∧
  st_out s1 = st_out s ∧
  ∀ help c,
    cl_gui c = false →
    cl_input_file c = Some i → i ≠ "" →
    cl_output_dir c = Some o → o ≠ "" →
    SPZConverter_init w (cl_project_root c) = self →
    default "content.glb" (cl_content_name c) = n →
    main w help (Arguments c) s = (Raise e, s1).
Proof.
  intros Hpre Hin Hfile e.
  assert (convert w self i o n s = (Raise e, s1)) as Hconv.
  { eapply convert_mkdir_raises; [done..|]. by eapply mkdir_on_file. }
  split; [exact Hconv|]. split.
  { by apply check_prerequisites_ok_inv in Hpre as (_ & -> & _). }
  intros help c Hgui Hi Hine Ho Hone Hself Hname.
  unfold main, parse_args. cbn [gui input_file output_dir content_name ns_project_root].
  rewrite Hgui, Hi, Ho, Hself, Hname. cbn [truthy default].
  destruct i; [done|]. destruct o; [done|]. cbn [String.eqb negb orb].
  unfold bind, id. by rewrite Hconv.
Qed.


(* ===================================================================== *)
(** ** The properties at work on the concrete installation *)
(* ===================================================================== *)

Lemma demo_reaches_launch b o :
  exists_in (Demo.world "posix" b) (st_fs (Demo.s1 (Demo.world "posix" b))) (Path "in.spz") →
  fst (mkdir (Demo.world "posix" b) (Path o) true true (Demo.s1 (Demo.world "posix" b)))
    = Ret tt →
  reaches_launch (Demo.world "posix" b) (Demo.converter (Demo.world "posix" b))
    "in.spz" o Demo.s0 (Demo.s2 (Demo.world "posix" b) o).
Proof.
  intros Hin Hmk. exists (Demo.s1 (Demo.world "posix" b)).
  split; [by vm_compute|]. split; [done|].
  unfold Demo.s2. by destruct (mkdir _ _ _ _ _) as [r s']; simplify_eq/=.
Defined.

Lemma demo_input_exists b :
  exists_in (Demo.world "posix" b) (st_fs (Demo.s1 (Demo.world "posix" b))) (Path "in.spz").
Proof. exists ["home"; "u"; "in.spz"], File. by vm_compute. Defined.

(** C5 on a machine with Maven on the search path and [JAVA_HOME] set to
    a directory whose name is too long, where the version query would fail
    as well: the third check is the first to fail, and no diagnostic is
    returned. *)
Lemma first_failing_check_can_raise_witness :
  check_result Desk.world_long_java_home Demo.fs0 <$> stated_order =
    [ None; None;
      Some (msg_no_java_exe (Path ("/" ++ Desk.long_name ++ "/bin/java")));
      Some (msg_maven_test
              "Command '['mvn', '--version']' timed out after 30 seconds") ] ∧
  check_prerequisites Desk.world_long_java_home
    (Demo.converter Desk.world_long_java_home) Demo.s0 =
    (Raise (OSError ("[Errno 36] File name too long: '/" ++ Desk.long_name ++
                     "/bin/java'")), Demo.s0).
Proof.
  split; [vm_compute; reflexivity|].
  destruct (first_failing_check_can_raise Desk.world_long_java_home
              (Demo.converter Desk.world_long_java_home) Demo.s0)
    as (_ & _ & Hraise).
  - intros c' Hlt. destruct c'; cbn in Hlt; try lia; vm_compute; reflexivity.
  - vm_compute. reflexivity.
  - rewrite Hraise. vm_compute. reflexivity.
Defined.

(** C4 on the same machine, for the command line
    [spz_converter.py in.spz out]. *)
Lemma missing_java_exe_escapes_convert_witness :
  convert Desk.world_long_java_home (Demo.converter Desk.world_long_java_home)
    "in.spz" "out" "content.glb" Demo.s0 =
    (Raise (OSError ("[Errno 36] File name too long: '/" ++ Desk.long_name ++
                     "/bin/java'")), Demo.s0) ∧
  main Desk.world_long_java_home "usage" (Arguments Demo.cli) Demo.s0 =
    (Raise (OSError ("[Errno 36] File name too long: '/" ++ Desk.long_name ++
                     "/bin/java'")), Demo.s0).
Proof.
  destruct (missing_java_exe_escapes_convert Desk.world_long_java_home
              (Demo.converter Desk.world_long_java_home)
              "in.spz" "out" "content.glb" Demo.s0)
    as (_ & _ & Hconv & Hmain).
  - reflexivity.
  - reflexivity.
  - vm_compute. reflexivity.
  - split.
    + rewrite Hconv. vm_compute. reflexivity.
    + rewrite (Hmain "usage" Demo.cli) by first [reflexivity | discriminate].
      vm_compute. reflexivity.
Defined.

(** C6 for an input path of 300 letters, with all prerequisites in place. *)
Lemma overlong_input_escapes_convert_witness :
  convert (Demo.world "posix" Demo.succeeds)
    (Demo.converter (Demo.world "posix" Demo.succeeds))
    Desk.long_name "out" "content.glb" Demo.s0 =
    (Raise (OSError ("[Errno 36] File name too long: '" ++ Desk.long_name ++ "'")),
     Demo.s1 (Demo.world "posix" Demo.succeeds)) ∧
  st_out (Demo.s1 (Demo.world "posix" Demo.succeeds)) = [] ∧
  ¬ exists_in (Demo.world "posix" Demo.succeeds)
      (st_fs (Demo.s1 (Demo.world "posix" Demo.succeeds))) (Path Desk.long_name).
Proof.
  destruct (overlong_input_escapes_convert (Demo.world "posix" Demo.succeeds)
              (Demo.converter (Demo.world "posix" Demo.succeeds))
              Desk.long_name "out" "content.glb" Demo.s0
              (Demo.s1 (Demo.world "posix" Demo.succeeds)))
    as (Hmissing & Hconv & Hout & _).
  - vm_compute. reflexivity.
  - vm_compute. reflexivity.
  - split; [|split; [exact Hout | exact Hmissing]].
    rewrite Hconv. vm_compute. reflexivity.
Defined.

(** C3 as stated fails for a content name that is an absolute path: the
    conversion succeeds, and the content path that is reported does not lie
    under the output directory. *)
Lemma zero_exit_reports_outputs_counterexample :
  (∃ s',
     convert (Demo.world "posix" Demo.succeeds)
       (Demo.converter (Demo.world "posix" Demo.succeeds))
       "in.spz" "out" "/tmp/scene.glb" Demo.s0 = (Ret true, s') ∧
     st_out s' =
       [ "Converting in.spz to out...";
         "Running: mvn exec:java -Dexec.mainClass=de.javagl.jspz.examples.SpzToTileset -Dexec.args=/home/u/in.spz /home/u/out /tmp/scene.glb -pl jspz-main -q";
         "✓ Conversion completed successfully!";
         "  Output files:";
         "    - out/tileset.json";
         "    - /tmp/scene.glb" ]) ∧
  Path "out" // "/tmp/scene.glb" = {| root := "/"; parts := ["tmp"; "scene.glb"] |} ∧
  path_parent (Path "out" // "/tmp/scene.glb") ≠ Path "out".
Proof.
  split; [|split].
  - eexists. split; vm_compute; reflexivity.
  - reflexivity.
  - vm_compute. discriminate.
Qed.

(** C3 for a conversion into a new directory two levels down. *)
Lemma zero_exit_reports_outputs_witness :
  ∃ s',
    convert (Demo.world "posix" Demo.succeeds)
      (Demo.converter (Demo.world "posix" Demo.succeeds))
      "in.spz" "out/tiles" "scene.glb" Demo.s0 = (Ret true, s') ∧
    st_out s' =
      [ "Converting in.spz to out/tiles...";
        "Running: mvn exec:java -Dexec.mainClass=de.javagl.jspz.examples.SpzToTileset -Dexec.args=/home/u/in.spz /home/u/out/tiles scene.glb -pl jspz-main -q";
        "✓ Conversion completed successfully!";
        "  Output files:";
        "    - out/tiles/tileset.json";
        "    - out/tiles/scene.glb" ].
Proof.
  destruct (zero_exit_reports_outputs (Demo.world "posix" Demo.succeeds)
              (Demo.converter (Demo.world "posix" Demo.succeeds))
              "in.spz" "out/tiles" "scene.glb" Demo.s0
              (Demo.s2 (Demo.world "posix" Demo.succeeds) "out/tiles") 12 "" "")
    as (Hrun & _).
  - apply demo_reaches_launch; [apply demo_input_exists | vm_compute; reflexivity].
  - vm_compute. reflexivity.
  - reflexivity.
  - exact Hrun.
Defined.

(** C8 for a command that exits with status 1 and a message on its error
    stream. *)
Lemma nonzero_exit_reports_streams_witness :
  ∃ s' lines,
    convert (Demo.world "posix" Demo.fails)
      (Demo.converter (Demo.world "posix" Demo.fails))
      "in.spz" "out" "content.glb" Demo.s0 = (Ret false, s') ∧
    st_out s' =
      (st_out Demo.s0 ++
       progress_lines "in.spz" "out"
         (conversion_cmd (Demo.world "posix" Demo.fails)
            (Demo.converter (Demo.world "posix" Demo.fails))
            "in.spz" "out" "content.glb") ++ lines)%list ∧
    ("Return code: " ++ pretty 1)%string ∈ lines ∧
    ("" ≠ "" → ("Standard output: " ++ "")%string ∈ lines) ∧
    ("bad SPZ header" ≠ "" → ("Error output: " ++ "bad SPZ header")%string ∈ lines) ∧
    reported lines (pretty 1) ∧ reported lines "" ∧ reported lines "bad SPZ header".
Proof.
  apply (nonzero_exit_reports_streams (Demo.world "posix" Demo.fails)
           (Demo.converter (Demo.world "posix" Demo.fails))
           "in.spz" "out" "content.glb" Demo.s0
           (Demo.s2 (Demo.world "posix" Demo.fails) "out") 12 1 "" "bad SPZ header").
  - apply demo_reaches_launch; [apply demo_input_exists | vm_compute; reflexivity].
  - vm_compute. reflexivity.
  - reflexivity.
  - discriminate.
Defined.

(** C9 for a command that never returns. *)
Lemma timeout_reported_distinctly_witness :
  ∃ s',
    convert (Demo.world "posix" NeverReturns)
      (Demo.converter (Demo.world "posix" NeverReturns))
      "in.spz" "out" "content.glb" Demo.s0 = (Ret false, s') ∧
    last (st_out s') = Some timeout_line.
Proof.
  destruct (timeout_reported_distinctly (Demo.world "posix" NeverReturns)
              (Demo.converter (Demo.world "posix" NeverReturns))
              "in.spz" "out" "content.glb" Demo.s0
              (Demo.s2 (Demo.world "posix" NeverReturns) "out"))
    as (res & s' & lines & Hc & Hout & Htimeout & _).
  - apply demo_reaches_launch; [apply demo_input_exists | vm_compute; reflexivity].
  - destruct Htimeout as [-> Hlast]; [exact I|].
    exists s'. split; [exact Hc|].
    rewrite Hout, last_app, Hlast. reflexivity.
Defined.

(** C2 on a POSIX machine, with the project root taken from the place of
    the script. *)
Lemma conversion_command_is_exec_java_witness :
  ∃ res s',
    convert (Demo.world "posix" Demo.succeeds)
      (SPZConverter_init (Demo.world "posix" Demo.succeeds) None)
      "in.spz" "../out" "content.glb" Demo.s0 = (Ret res, s') ∧
    map (λ c, (call_cmd c, call_cwd c, call_timeout c)) (st_calls s') =
      [ (["mvn"; "--version"], None, 30);
        (["mvn"; "exec:java";
          "-Dexec.mainClass=de.javagl.jspz.examples.SpzToTileset";
          "-Dexec.args=/home/u/in.spz /home/out content.glb";
          "-pl"; "jspz-main"; "-q"],
         Some {| root := "/"; parts := ["home"; "u"; "JSpz"] |}, 300) ].
Proof.
  destruct (conversion_command_is_exec_java (Demo.world "posix" Demo.succeeds)
              None "in.spz" "../out" "content.glb" Demo.s0
              (Demo.s2 (Demo.world "posix" Demo.succeeds) "../out"))
    as (res & s' & Hc & Hcalls & _).
  - apply demo_reaches_launch; [apply demo_input_exists | vm_compute; reflexivity].
  - exists res, s'. split; [exact Hc|]. rewrite Hcalls. vm_compute. reflexivity.
Defined.

(** C10 for the command line [spz_converter.py in.spz out]. *)
Lemma cli_default_content_name_witness :
  ∃ s',
    main (Demo.world "posix" Demo.succeeds) "usage" (Arguments Demo.cli) Demo.s0
      = (Ret (Exit 0), s') ∧
    call_cmd <$> last (st_calls s') =
      Some [ "mvn"; "exec:java";
             "-Dexec.mainClass=de.javagl.jspz.examples.SpzToTileset";
             "-Dexec.args=/home/u/in.spz /home/u/out content.glb";
             "-pl"; "jspz-main"; "-q" ] ∧
    last (st_out s') = Some "    - out/content.glb".
Proof.
  destruct (cli_default_content_name (Demo.world "posix" Demo.succeeds) "usage"
              Demo.cli "in.spz" "out" Demo.s0)
    as (_ & Hrun); try reflexivity; try discriminate.
  destruct (Hrun (Demo.s2 (Demo.world "posix" Demo.succeeds) "out"))
    as (code & s' & Hmain & Hlast & _ & Hzero).
  - apply demo_reaches_launch; [apply demo_input_exists | vm_compute; reflexivity].
  - destruct (Hzero 12 "" "") as (-> & Hout); [vm_compute; reflexivity | reflexivity |].
    exists s'. split; [exact Hmain|]. split; [|exact Hout].
    rewrite Hlast. vm_compute. reflexivity.
Defined.

(** C1 for the command line [spz_converter.py in.spz in.spz], which names
    the input file as the output directory. *)
Lemma convert_raises_when_output_is_a_file_witness :
  convert (Demo.world "posix" Demo.succeeds)
    (Demo.converter (Demo.world "posix" Demo.succeeds))
    "in.spz" "in.spz" "content.glb" Demo.s0 =
  (Raise (FileExistsError "[Errno 17] File exists: 'in.spz'"),
   Demo.s1 (Demo.world "posix" Demo.succeeds)) ∧
  main (Demo.world "posix" Demo.succeeds) "usage"
    (Arguments {| cl_gui := false; cl_input_file := Some "in.spz";
                  cl_output_dir := Some "in.spz"; cl_content_name := None;
                  cl_project_root := None |}) Demo.s0 =
  (Raise (FileExistsError "[Errno 17] File exists: 'in.spz'"),
   Demo.s1 (Demo.world "posix" Demo.succeeds)).
Proof.
  destruct (convert_raises_when_output_is_a_file (Demo.world "posix" Demo.succeeds)
              (Demo.converter (Demo.world "posix" Demo.succeeds))
              "in.spz" "in.spz" "content.glb" Demo.s0
              (Demo.s1 (Demo.world "posix" Demo.succeeds)) ["home"; "u"; "in.spz"])
    as (Hconv & _ & Hmain).
  - vm_compute. reflexivity.
  - apply demo_input_exists.
  - vm_compute. reflexivity.
  - split; [exact Hconv|].
    apply Hmain; try reflexivity; discriminate.
Defined.


(* ===================================================================== *)
(** ** Output is only ever appended *)
(* ===================================================================== *)

Lemma appends_only_ret {A} (a : A) : appends_only (ret a).
Proof. by intros pre s. Qed.

Lemma appends_only_raise {A} e : appends_only (@raise A e).
Proof. by intros pre s. Qed.

Lemma appends_only_print line : appends_only (print line).
Proof.
  intros pre s. unfold print, prefixed, with_out. cbn. by rewrite app_assoc.
Qed.

Lemma appends_only_bind {A B} (m : M A) (k : A → M B) :
  appends_only m → (∀ a, appends_only (k a)) → appends_only (bind m k).
Proof.
  intros Hm Hk pre s. unfold bind. rewrite Hm.
  destruct (m s) as [[a|e] s1]; cbn [fst snd]; [apply Hk | done].
Qed.

Lemma appends_only_try_except {A} (body : M A) (handler : exn → M A) :
  appends_only body → (∀ e, appends_only (handler e)) →
  appends_only (try_except body handler).
Proof.
  intros Hm Hh pre s. unfold try_except. rewrite Hm.
  destruct (body s) as [[a|e] s1]; cbn [fst snd]; [done | apply Hh].
Qed.

Lemma appends_only_when c body : appends_only body → appends_only (when c body).
Proof. intros H. destruct c; [done | apply appends_only_ret]. Qed.

Lemma appends_only_path_exists w p : appends_only (path_exists w p).
Proof.
  intros pre s. unfold path_exists. cbn [prefixed with_out st_fs].
  by destruct (stat w (st_fs s) p).
Qed.

Lemma appends_only_is_dir w p : appends_only (is_dir w p).
Proof.
  intros pre s. unfold is_dir. cbn [prefixed with_out st_fs].
  by destruct (stat w (st_fs s) p) as [loc []| | | | |].
Qed.

Lemma appends_only_os_mkdir w p : appends_only (os_mkdir w p).
Proof.
  intros pre s. unfold os_mkdir. cbn [prefixed with_out st_fs].
  by destruct (stat w (st_fs s) p).
Qed.

Lemma appends_only_subprocess_run w cmd dir timeout :
  appends_only (subprocess_run w cmd dir timeout).
Proof.
  intros pre s. rewrite !subprocess_run_spec. cbn [prefixed with_out st_fs fst snd].
  done.
Qed.

(** The steps of a proof that a computation only appends. *)
Ltac appends_only_step :=
  first
    [ apply appends_only_ret | apply appends_only_raise
    | apply appends_only_print | apply appends_only_path_exists
    | apply appends_only_is_dir | apply appends_only_os_mkdir
    | apply appends_only_subprocess_run
    | apply appends_only_when
    | apply appends_only_bind; [|intros ?]
    | apply appends_only_try_except; [|intros ?]
    | match goal with
      | |- appends_only (if ?c then _ else _) => destruct c
      | |- appends_only (match ?x with _ => _ end) => destruct x
      end ].

Lemma appends_only_mkdir_except_OSError w exist_ok p e :
  appends_only (mkdir_except_OSError w exist_ok p e).
Proof. unfold mkdir_except_OSError. repeat appends_only_step. Qed.

Lemma appends_only_mkdir_leaf w exist_ok p : appends_only (mkdir_leaf w exist_ok p).
Proof.
  unfold mkdir_leaf. repeat appends_only_step.
  all: apply appends_only_mkdir_except_OSError.
Qed.

Lemma appends_only_mkdir_parents w rt rtail exist_ok :
  appends_only (mkdir_parents w rt rtail exist_ok).
Proof.
  revert exist_ok. induction rtail as [|c rparent IH]; intros exist_ok;
    cbn [mkdir_parents]; repeat appends_only_step.
  all: first [apply IH | apply appends_only_mkdir_leaf
             | apply appends_only_mkdir_except_OSError].
Qed.

Lemma appends_only_mkdir w p parents exist_ok :
  appends_only (mkdir w p parents exist_ok).
Proof.
  unfold mkdir. destruct parents;
    [apply appends_only_mkdir_parents | apply appends_only_mkdir_leaf].
Qed.

Lemma appends_only_check_prerequisites w self :
  appends_only (check_prerequisites w self).
Proof. unfold check_prerequisites. repeat appends_only_step. Qed.

Lemma appends_only_run_conversion w self i o n cmd :
  appends_only (run_conversion w self i o n cmd).
Proof. unfold run_conversion. repeat appends_only_step. Qed.

Lemma appends_only_convert w self i o n : appends_only (convert w self i o n).
Proof.
  unfold convert. apply appends_only_bind; [apply appends_only_check_prerequisites|].
  intros [ok msg]. destruct ok; cbn [negb]; [|repeat appends_only_step].
  apply appends_only_bind; [apply appends_only_path_exists|].
  intros present. destruct present; cbn [negb]; [|repeat appends_only_step].
  apply appends_only_bind; [apply appends_only_mkdir|]. intros _.
  apply appends_only_run_conversion.
Qed.

Lemma with_out_eta s : with_out s (st_out s) = s.
Proof. by destruct s. Qed.

Lemma prefixed_with_out pre s : prefixed pre (with_out s []) = with_out s pre.
Proof. unfold prefixed, with_out. cbn. by rewrite app_nil_r. Qed.

(** A computation that only appends, started with another history of
    output. *)
Lemma appends_only_from_empty {A} (m : M A) s :
  appends_only m →
  m s = (fst (m (with_out s [])),
         prefixed (st_out s) (snd (m (with_out s [])))).
Proof.
  intros Hm. rewrite <- (Hm (st_out s) (with_out s [])).
  by rewrite prefixed_with_out, with_out_eta.
Qed.

(* ===================================================================== *)
(** ** The four ways through convert *)
(* ===================================================================== *)

Lemma convert_cases w self i o n s :
  (∃ e,
     check_prerequisites w self s = (Raise e, s) ∧
     exists_check_raises w (st_fs s) = true ∧
     e = too_long_error (expected_java_exe w) ∧
     convert w self i o n s = (Raise e, s)) ∨
  (∃ d s1,
     check_prerequisites w self s = (Ret (false, d), s1) ∧
     convert w self i o n s = (Ret false, printed s1 [prerequisites_failed_line d])) ∨
  (∃ s1,
     check_prerequisites w self s = (Ret (true, ""), s1) ∧
     stat w (st_fs s1) (Path i) = NameTooLong ∧
     convert w self i o n s = (Raise (too_long_error (Path i)), s1)) ∨
  (∃ s1,
     check_prerequisites w self s = (Ret (true, ""), s1) ∧
     ¬ exists_in w (st_fs s1) (Path i) ∧
     convert w self i o n s = (Ret false, printed s1 [input_missing_line i])) ∨
  (∃ s1 e s2,
     check_prerequisites w self s = (Ret (true, ""), s1) ∧
     exists_in w (st_fs s1) (Path i) ∧
     mkdir w (Path o) true true s1 = (Raise e, s2) ∧
     convert w self i o n s = (Raise e, s2)) ∨
  (∃ s2,
     reaches_launch w self i o s s2 ∧
     convert w self i o n s =
       run_conversion w self i o n (conversion_cmd w self i o n) s2).
Proof.
  pose proof (check_prerequisites_refines w self s) as Hpre.
  destruct (exists_check_raises w (st_fs s)) eqn:Hraises.
  { left. eexists. split; [exact Hpre|]. split; [done|]. split; [done|].
    by apply convert_prereq_raises. }
  right.
  destruct (check_prerequisites_spec w (st_fs s)) as [[] d].
  - pose proof Hpre as (-> & _ & _)%check_prerequisites_ok_inv.
    set (s1 := if decide _ then _ else _) in Hpre.
    destruct (stat w (st_fs s1) (Path i)) as [loc k| | | | |] eqn:Hst.
    2-4,6: do 2 right; left; exists s1; split; [done|];
         (assert (¬ exists_in w (st_fs s1) (Path i))
            by (intros (? & ? & ?); congruence));
         split; [done|]; apply convert_input_missing; [done..|congruence].
    2: { right. left. exists s1. split; [done|]. split; [done|].
         by apply convert_input_raises. }
    assert (exists_in w (st_fs s1) (Path i)) as Hin by by eexists _, _.
    destruct (mkdir w (Path o) true true s1) as [[[]|e] s2] eqn:Hmk.
    + do 4 right. exists s2.
      assert (reaches_launch w self i o s s2) as Hreach by by exists s1.
      split; [done|]. by apply convert_reaches.
    + do 3 right. left. exists s1, e, s2. repeat split; try done.
      by eapply convert_mkdir_raises.
  - left. eexists d, _. split; [done|]. by eapply convert_prereq_failed.
Qed.

Lemma report_true_inv o n b :
  fst (report o n b) = true → ∃ d out err, b = Terminates d 0 out err ∧ d < 300.
Proof.
  destruct b as [d rc out err| |e]; cbn [report]; try done.
  destruct (d <? 300)%Z eqn:Hd; [|done].
  destruct (rc =? 0)%Z eqn:Hrc; [|done]. intros _.
  apply Z.ltb_lt in Hd. apply Z.eqb_eq in Hrc. subst. eauto.
Qed.

Lemma check_prerequisites_state w self s r s1 :
  check_prerequisites w self s = (r, s1) →
  s1 = s ∨ s1 = after_run w [mvn_cmd w; "--version"] None 30 s.
Proof.
  rewrite check_prerequisites_refines.
  destruct (exists_check_raises w (st_fs s)); intros [= _ <-]; [eauto|].
  case_decide; eauto.
Qed.

(* ===================================================================== *)
(** ** Further properties of convert *)
(* ===================================================================== *)

(** X4.  [convert] makes no second attempt: over a whole invocation,
    however it ends, the calls of [subprocess.run] are none, or the version
    query alone, or the version query followed by one conversion call. *)
Theorem convert_runs_each_command_once w self i o n s :
  ∃ extra,
    st_calls (snd (convert w self i o n s)) = (st_calls s ++ extra)%list ∧
    (extra = [] ∨
     extra = [version_call w (st_fs s)] ∨
     ∃ f, extra = [version_call w (st_fs s); conversion_call w self i o n f]).
Proof.
  destruct (convert_cases w self i o n s)
    as [(e & _ & _ & _ & ->) | [(d & s1 & Hpre & ->) | [(s1 & Hpre & _ & ->) |
        [(s1 & Hpre & _ & ->) |
        [(s1 & e & s2 & Hpre & _ & Hmk & ->) | (s2 & Hreach & _)]]]]].
  - exists []. cbn [snd]. by rewrite app_nil_r; eauto.
  - apply check_prerequisites_state in Hpre as [-> | ->]; cbn [snd printed st_calls].
    + exists []. by rewrite app_nil_r; eauto.
    + eexists. split; [done|]. by right; left.
  - apply check_prerequisites_ok_inv in Hpre as (_ & -> & _). cbn.
    eexists. split; [done|]. by right; left.
  - apply check_prerequisites_ok_inv in Hpre as (_ & -> & _). cbn.
    eexists. split; [done|]. by right; left.
  - apply check_prerequisites_ok_inv in Hpre as (_ & -> & _).
    pose proof (adds_dirs_only_mkdir w (Path o) true true
                  (after_run w [mvn_cmd w; "--version"] None 30 s)) as (_ & _ & Hc).
    rewrite Hmk in Hc. cbn [snd] in *. rewrite Hc. cbn.
    eexists. split; [done|]. by right; left.
  - destruct (convert_at_launch w self i o n s s2 Hreach) as (s' & -> & _ & Hcalls).
    cbn [snd]. eexists. split; [exact Hcalls|]. right; right. by eexists.
Qed.

Lemma convert_true_inv w self i o n s s' :
  convert w self i o n s = (Ret true, s') →
  ∃ s2 d out err,
    reaches_launch w self i o s s2 ∧
    behaviour w (conversion_cmd w self i o n) (Some (project_root self)) (st_fs s2)
      = Terminates d 0 out err ∧
    d < 300.
Proof.
  intros Hconv.
  destruct (convert_cases w self i o n s)
    as [(e & _ & _ & _ & Hc) | [(d & s1 & _ & Hc) | [(s1 & _ & _ & Hc) |
        [(s1 & _ & _ & Hc) |
        [(s1 & e & s2 & _ & _ & _ & Hc) | (s2 & Hreach & Hc)]]]]];
    rewrite Hc in Hconv; try done.
  rewrite run_conversion_spec in Hconv. injection Hconv as Hres _.
  apply report_true_inv in Hres as (d & out & err & Hb & Hd).
  by exists s2, d, out, err.
Qed.

(** X5.  [convert] returns [True] exactly when it got to run the
    conversion command and the command terminated within the 300 bound
    with exit status 0; in every other case it returns [False] or raises. *)
Theorem convert_true_iff_zero_exit w self i o n s :
  (∃ s', convert w self i o n s = (Ret true, s')) ↔
  (∃ s2 d out err,
     reaches_launch w self i o s s2 ∧
     behaviour w (conversion_cmd w self i o n) (Some (project_root self)) (st_fs s2)
       = Terminates d 0 out err ∧
     d < 300).
Proof.
  split.
  - intros (s' & Hconv). by eapply convert_true_inv.
  - intros (s2 & d & out & err & Hreach & Hb & Hd%Z.ltb_lt).
    destruct (convert_at_launch w self i o n s s2 Hreach) as (s' & Hc & _).
    rewrite Hb in Hc. cbn [report] in Hc. rewrite Hd in Hc.
    by exists s'.
Qed.

(** X6.  Of the input path [convert] checks only that it exists: when it
    names a directory, the output directory is made and the conversion
    command is run on it all the same. *)
Theorem directory_passes_as_input w self i o n s s1 s2 :
  check_prerequisites w self s = (Ret (true, ""), s1) →
  is_dir_in w (st_fs s1) (Path i) →
  mkdir w (Path o) true true s1 = (Ret tt, s2) →
  ∃ res s',
    convert w self i o n s = (Ret res, s') ∧
    last (st_calls s') = Some (conversion_call w self i o n (st_fs s2)).
Proof.
  intros Hpre (loc & Hdir) Hmk.
  assert (reaches_launch w self i o s s2) as Hreach.
  { exists s1. split; [done|]. split; [by exists loc, Dir | done]. }
  destruct (convert_at_launch w self i o n s s2 Hreach) as (s' & Hc & _ & Hcalls).
  eexists _, s'. split; [exact Hc|]. by rewrite Hcalls, last_app.
Qed.

(** X7.  [convert] itself never removes or replaces anything in the file
    system and never makes a file: where the child processes leave the
    file system alone, every entry there was before an invocation is there
    after it, however it ends, and every regular file there is after it was
    there before. *)
Theorem convert_only_adds_directories w self i o n s :
  children_inert w →
  only_adds_dirs (st_fs s) (st_fs (snd (convert w self i o n s))).
Proof.
  intros Hinert.
  assert (∀ cmd dir timeout t, st_fs (after_run w cmd dir timeout t) = st_fs t)
    as Hrun by (intros; apply Hinert).
  destruct (convert_cases w self i o n s)
    as [(e & _ & _ & _ & ->) | [(d & s1 & Hpre & ->) | [(s1 & Hpre & _ & ->) |
        [(s1 & Hpre & _ & ->) |
        [(s1 & e & s2 & Hpre & _ & Hmk & ->) | (s2 & Hreach & ->)]]]]];
    cbn [snd printed st_fs].
  - apply only_adds_dirs_refl.
  - apply check_prerequisites_state in Hpre as [-> | ->];
      rewrite ?Hrun; apply only_adds_dirs_refl.
  - apply check_prerequisites_ok_inv in Hpre as (_ & -> & _).
    rewrite Hrun. apply only_adds_dirs_refl.
  - apply check_prerequisites_ok_inv in Hpre as (_ & -> & _).
    rewrite Hrun. apply only_adds_dirs_refl.
  - apply check_prerequisites_ok_inv in Hpre as (_ & -> & _).
    pose proof (adds_dirs_only_mkdir w (Path o) true true
                  (after_run w [mvn_cmd w; "--version"] None 30 s)) as (Hf & _).
    rewrite Hmk, Hrun in Hf. exact Hf.
  - rewrite run_conversion_spec. cbn [snd printed st_fs]. rewrite Hrun.
    cbn [printed st_fs]. destruct Hreach as (s1 & Hpre & _ & Hmk).
    apply check_prerequisites_ok_inv in Hpre as (_ & -> & _).
    pose proof (adds_dirs_only_mkdir w (Path o) true true
                  (after_run w [mvn_cmd w; "--version"] None 30 s)) as (Hf & _).
    rewrite Hmk, Hrun in Hf. exact Hf.
Qed.

(** X8.  [convert] does not clean up: once the conversion command has been
    run, the file system is, when [convert] returns, the one the child
    process left, whatever the result; so the output directory is still
    there unless the child process itself removed it. *)
Theorem output_directory_stays w self i o n s s2 :
  reaches_launch w self i o s s2 →
  is_dir_in w
    (snd (proc w (conversion_cmd w self i o n) (project_root self) (st_fs s2)))
    (Path o) →
  ∃ res s',
    convert w self i o n s = (Ret res, s') ∧
    st_fs s' =
      snd (proc w (conversion_cmd w self i o n) (project_root self) (st_fs s2)) ∧
    is_dir_in w (st_fs s') (Path o).
Proof.
  intros Hreach Hkept.
  rewrite (convert_reaches _ _ _ _ _ _ _ Hreach), run_conversion_spec.
  eexists _, _. split; [done|]. cbn [printed st_fs after_run default].
  split; [done|]. exact Hkept.
Qed.


(* ===================================================================== *)
(** ** Further properties of the prerequisite checker *)
(* ===================================================================== *)

Lemma diagnosed_nonempty d c : diagnosed d = Some c → d ≠ "".
Proof. by intros H ->. Qed.

(** X1.  [check_prerequisites] turns every outcome of the version query
    into an answer: it returns a flag and a message, the message being
    empty exactly when the flag is [True]; it prints nothing, and the only
    call it can make is the version query.  The one exception that can
    leave it is the [OSError] that the existence test of the runtime
    executable raises on a name that is too long; it is raised with the
    build tool found and the variable set, before any call is made. *)
Theorem check_prerequisites_answers_or_exists_raises w self s :
  (∃ ok msg s',
     check_prerequisites w self s = (Ret (ok, msg), s') ∧
     (ok = true ↔ msg = "") ∧
     st_out s' = st_out s ∧
     (st_calls s' = st_calls s ∨
      st_calls s' = (st_calls s ++ [version_call w (st_fs s)])%list)) ∨
  (check_prerequisites w self s =
     (Raise (too_long_error (expected_java_exe w)), s) ∧
   truthy (which w (mvn_cmd w)) = true ∧
   truthy (environ w !! "JAVA_HOME") = true ∧
   stat w (st_fs s) (expected_java_exe w) = NameTooLong).
Proof.
  rewrite check_prerequisites_refines.
  destruct (exists_check_raises w (st_fs s)) eqn:Hraises.
  { right. split; [done|]. unfold exists_check_raises in Hraises.
    apply andb_true_iff in Hraises as [[H1 H2]%andb_true_iff H3].
    repeat split; try done.
    by destruct (stat w (st_fs s) (expected_java_exe w)). }
  left. unfold check_prerequisites_spec.
  destruct (first_failure w (st_fs s) stated_order) as [[c d]|] eqn:Hff.
  - eexists false, d, _. split; [done|]. split.
    + apply first_failure_sound in Hff as (_ & Hd).
      apply diagnosed_check_result, diagnosed_nonempty in Hd. by split.
    + case_decide; cbn; eauto.
  - eexists true, "", _. split; [done|]. split; [done|].
    case_decide; cbn; eauto.
Qed.

(** X2.  A [JAVA_HOME] that is set to the empty string counts as not set:
    with the build tool on the search path, the answer is the diagnostic of
    the missing variable, and the version query is not run. *)
Theorem empty_java_home_counts_as_unset w self s :
  truthy (which w (mvn_cmd w)) = true →
  environ w !! "JAVA_HOME" = Some "" →
  check_prerequisites w self s = (Ret (false, msg_no_java_home), s).
Proof.
  intros Hwhich Hhome. unfold check_prerequisites.
  by rewrite Hwhich, Hhome.
Qed.

(* ===================================================================== *)
(** ** The combined argument string *)
(* ===================================================================== *)

Lemma lacks_append c a b : lacks c (a ++ b) = lacks c a && lacks c b.
Proof.
  induction a as [|x a IH]; [done|].
  change (negb (Ascii.eqb x c) && lacks c (a ++ b) =
          negb (Ascii.eqb x c) && lacks c a && lacks c b).
  by rewrite IH, andb_assoc.
Qed.

Lemma split_on_lacks c s : lacks c s = true → split_on c s = [s].
Proof.
  induction s as [|x s IH]; [done|]. cbn [lacks split_on].
  intros [Hx Hs]%andb_true_iff. apply negb_true_iff in Hx.
  by rewrite Hx, (IH Hs).
Qed.

Lemma split_on_sep c a b :
  lacks c a = true → split_on c (a ++ String c b) = a :: split_on c b.
Proof.
  induction a as [|x a IH]; intros Ha.
  - change (split_on c (String c b) = "" :: split_on c b).
    cbn [split_on]. by rewrite Ascii.eqb_refl.
  - cbn [lacks] in Ha. apply andb_true_iff in Ha as [Hx Ha].
    apply negb_true_iff in Hx.
    change (split_on c (String x (a ++ String c b)) = String x a :: split_on c b).
    cbn [split_on]. by rewrite Hx, (IH Ha).
Qed.

(** Three values without the separator come back from their joined text. *)
Lemma split_on_three c a b d :
  lacks c a = true → lacks c b = true → lacks c d = true →
  split_on c (a ++ String c "" ++ b ++ String c "" ++ d) = [a; b; d].
Proof.
  intros Ha Hb Hd.
  change (a ++ String c "" ++ b ++ String c "" ++ d)
    with (a ++ String c (b ++ String c d)).
  by rewrite !split_on_sep, split_on_lacks.
Qed.

Lemma lacks_split_slash c s :
  lacks c s = true → Forall (λ x, lacks c x = true) (split_slash s).
Proof.
  induction s as [|x s IH]; [by repeat constructor|].
  cbn [lacks split_slash]. intros [Hx Hs]%andb_true_iff. specialize (IH Hs).
  destruct (Ascii.eqb x "/"); [by constructor|].
  destruct (split_slash s) as [|h t].
  - constructor; [|constructor]. cbn [lacks]. by rewrite Hx.
  - apply Forall_cons in IH as [Hh Ht]. constructor; [|done].
    cbn [lacks]. by rewrite Hx, Hh.
Qed.

Lemma Forall_removelast {A} (P : A → Prop) l : Forall P l → Forall P (removelast l).
Proof.
  induction l as [|x l IH]; [done|]. intros [Hx Hl]%Forall_cons.
  destruct l as [|y l]; [constructor|]. cbn [removelast] in *.
  constructor; [done|]. by apply IH.
Qed.

Lemma Forall_normalize (P : string → Prop) base comps :
  Forall P base → Forall P comps → Forall P (normalize base comps).
Proof.
  unfold normalize. revert base.
  induction comps as [|c comps IH]; intros base Hbase Hcomps; [done|].
  apply Forall_cons in Hcomps as [Hc Hcomps]. cbn [fold_left]. apply IH; [|done].
  unfold step. destruct (String.eqb c "..").
  - by apply Forall_removelast.
  - apply Forall_app. split; [done|]. by constructor.
Qed.

Lemma lacks_join c sep xs :
  lacks c sep = true → Forall (λ x, lacks c x = true) xs →
  lacks c (join sep xs) = true.
Proof.
  intros Hsep. unfold join.
  induction xs as [|x xs IH]; [done|]. intros [Hx Hxs]%Forall_cons.
  destruct xs as [|y xs]; [done|].
  change (lacks c (x ++ sep ++ String.concat sep (y :: xs)) = true).
  rewrite !lacks_append, Hx, Hsep. by apply IH.
Qed.

(** Resolving a path brings no space into it. *)
Lemma lacks_resolve w c s :
  lacks c "/" = true →
  Forall (λ x, lacks c x = true) (cwd w) → lacks c s = true →
  lacks c (path_str (resolve w (Path s))) = true.
Proof.
  intros Hslash Hcwd Hs. unfold path_str, resolve. cbn [root parts].
  change (lacks c ("/" ++ join "/" (normalize (anchor w (Path s)) (parts (Path s))))
          = true).
  rewrite lacks_append, Hslash. apply lacks_join; [done|].
  apply Forall_normalize.
  - unfold anchor. by destruct (is_absolute (Path s)).
  - unfold Path. cbn [parts].
    apply Forall_forall. intros x Hx.
    apply (list_subseteq_filter _ _) in Hx.
    pose proof (lacks_split_slash c s Hs) as Hall.
    rewrite Forall_forall in Hall. by apply Hall.
Qed.

(** X9.  Where neither the working directory nor the three arguments hold a
    space, the combined [-Dexec.args=] argument splits at its spaces into
    exactly the resolved input path, the resolved output path and the
    content name. *)
Theorem exec_args_round_trip w self i o n :
  Forall (λ x, lacks " " x = true) (cwd w) →
  lacks " " i = true → lacks " " o = true → lacks " " n = true →
  ∃ payload,
    conversion_cmd w self i o n !! 3%nat = Some ("-Dexec.args=" ++ payload) ∧
    split_on " " payload =
      [ path_str (resolve w (Path i)); path_str (resolve w (Path o)); n ].
Proof.
  intros Hcwd Hi Ho Hn. eexists. split; [done|].
  apply split_on_three; [by apply lacks_resolve..|done].
Qed.

(** X10.  The three values are joined without quoting, so the argument
    does not tell where one ends: a first path with a space in it, and a
    second path with that space in it instead, give the same command. *)
Theorem exec_args_not_quoted w self a b c n :
  already_resolved w (a ++ " " ++ b) →
  already_resolved w c →
  already_resolved w a →
  already_resolved w (b ++ " " ++ c) →
  conversion_cmd w self (a ++ " " ++ b) c n =
  conversion_cmd w self a (b ++ " " ++ c) n.
Proof.
  unfold already_resolved, conversion_cmd. intros -> -> -> ->.
  by rewrite !append_assoc.
Qed.

(* ===================================================================== *)
(** ** Further properties of main *)
(* ===================================================================== *)

(** X11.  [main] runs nothing unless it has both paths: with [--gui] on a
    machine without the toolkit, and in CLI mode with the input file or
    the output directory omitted or given as the empty string, it prints
    one text (the toolkit error, or the help) and exits with status 1; no
    prerequisite is checked, no command is run and the file system is not
    touched. *)
Theorem main_runs_nothing_without_both_paths w help c s :
  (cl_gui c = true ∧ GUI_AVAILABLE w = false) ∨
  (cl_gui c = false ∧
   (truthy (cl_input_file c) = false ∨ truthy (cl_output_dir c) = false)) →
  main w help (Arguments c) s =
  (Ret (Exit 1),
   printed s [ if cl_gui c
               then "Error: GUI not available. Please install tkinter."
               else help ]).
Proof.
  unfold main, parse_args. cbn [gui input_file output_dir].
  intros [[-> ->] | [-> [-> | ->]]]; cbn [negb orb]; try done.
  by rewrite orb_true_r.
Qed.

(** X12.  When [main] ends without an exception, the exit status of the
    process is 0 only after the help was asked for, or after a GUI session
    (with [--gui] and the toolkit present, where [main] returns), or in CLI
    mode after the conversion command was run and terminated within the
    300 bound with exit status 0. *)
Theorem exit_status_zero_cases w help a s r s' :
  main w help a s = (Ret r, s') →
  exit_status r = 0 →
  a = HelpRequested ∨
  (∃ c, a = Arguments c ∧ cl_gui c = true ∧ GUI_AVAILABLE w = true ∧
        r = GuiSession) ∨
  ∃ c i o s2 d out err,
    a = Arguments c ∧ cl_gui c = false ∧
    cl_input_file c = Some i ∧ cl_output_dir c = Some o ∧
    let self := SPZConverter_init w (cl_project_root c) in
    let n := default "content.glb" (cl_content_name c) in
    reaches_launch w self i o s s2 ∧
    behaviour w (conversion_cmd w self i o n) (Some (project_root self)) (st_fs s2)
      = Terminates d 0 out err ∧
    d < 300.
Proof.
  destruct a as [| |c]; [by intros [= <- _] | by left |]. intros Hmain Hzero. right.
  unfold main, parse_args in Hmain.
  cbn [gui input_file output_dir content_name ns_project_root] in Hmain.
  destruct (cl_gui c) eqn:Hgui.
  { left. exists c. destruct (GUI_AVAILABLE w); cbn [negb] in Hmain.
    - by injection Hmain as <- _.
    - by injection Hmain as <- _. }
  right.
  destruct (cl_input_file c) as [i|] eqn:Hi; [|by injection Hmain as <- _].
  destruct (cl_output_dir c) as [o|] eqn:Ho;
    [|rewrite orb_true_r in Hmain; by injection Hmain as <- _].
  destruct (negb (truthy (Some i)) || negb (truthy (Some o)));
    [by injection Hmain as <- _|].
  unfold bind, id in Hmain. cbn [default from_option] in Hmain.
  destruct (convert _ _ _ _ _ s) as [[[]|e] s1] eqn:Hconv; try done.
  - apply convert_true_inv in Hconv as (s2 & d & out & err & Hreach & Hb & Hd).
    by exists c, i, o, s2, d, out, err.
  - by injection Hmain as <- _.
Qed.

(** X13.  In CLI mode an empty [--content-name] is not replaced by the
    default: [main] hands the empty name to [convert], the combined
    argument ends with the space that would precede the name, and the
    content path of the success report is the output directory itself. *)
Theorem empty_content_name_is_kept w help c i o s :
  cl_gui c = false →
  cl_input_file c = Some i → i ≠ "" →
  cl_output_dir c = Some o → o ≠ "" →
  cl_content_name c = Some "" →
  let self := SPZConverter_init w (cl_project_root c) in
  main w help (Arguments c) s =
    (let* success := convert w self i o "" in
     ret (Exit (if success then 0 else 1))) s ∧
  conversion_cmd w self i o "" !! 3%nat =
    Some ("-Dexec.args=" ++ path_str (resolve w (Path i)) ++ " " ++
            path_str (resolve w (Path o)) ++ " ") ∧
  Path o // "" = Path o.
Proof.
  intros Hgui Hi Hine Ho Hone Hname self. split; [|split].
  - unfold main, parse_args.
    cbn [gui input_file output_dir content_name ns_project_root].
    rewrite Hgui, Hi, Ho, Hname. cbn [truthy default].
    destruct i; [done|]. destruct o; [done|]. done.
  - done.
  - unfold joinpath, Path. cbn [root parts filter]. by rewrite app_nil_r.
Qed.

(* ===================================================================== *)
(** ** The Convert button *)
(* ===================================================================== *)

Lemma nonempty_false_iff x : nonempty x = false ↔ x = "".
Proof. by destruct x. Qed.

(** X14.  With a field that is blank once the white space around it is
    taken off, the Convert button only shows an error box: for the input
    file first, else for the output directory.  Nothing is converted, and
    the fields, the log area, the console and the file system stay as they
    are. *)
Theorem blank_field_only_shows_error w g s :
  (strip (gui_input_file g) = "" →
   SPZConverterGUI_convert w g s = (Ret tt, show dialog_no_input g, s)) ∧
  (strip (gui_input_file g) ≠ "" → strip (gui_output_dir g) = "" →
   SPZConverterGUI_convert w g s = (Ret tt, show dialog_no_output g, s)).
Proof.
  unfold SPZConverterGUI_convert. split.
  - by intros ->.
  - intros Hi%nonempty_true ->. by rewrite Hi.
Qed.

(** The handler from the point where the fields have been read. *)
Lemma SPZConverterGUI_convert_runs w g s :
  strip (gui_input_file g) ≠ "" → strip (gui_output_dir g) ≠ "" →
  let n := if nonempty (strip (gui_content_filename g))
           then strip (gui_content_filename g) else "content.glb" in
  let g1 := if nonempty (strip (gui_content_filename g))
            then g else set_content_filename "content.glb" g in
  SPZConverterGUI_convert w g s =
  match redirect_stdout
          (convert w (converter g) (strip (gui_input_file g))
             (strip (gui_output_dir g)) n) s with
  | (Raise e, s') => (Raise e, set_log_text "" g1, s')
  | (Ret (success, captured), s') =>
      (Ret tt,
       show (if success then dialog_success else dialog_failure)
         (SPZConverterGUI_log (getvalue captured) (set_log_text "" g1)), s')
  end.
Proof.
  intros Hi%nonempty_true Ho%nonempty_true. unfold SPZConverterGUI_convert.
  rewrite Hi, Ho. cbn [negb].
  by destruct (nonempty (strip (gui_content_filename g))).
Qed.

Lemma redirect_stdout_spec {A} (m : M A) s :
  appends_only m →
  ∃ lines,
    st_out (snd (m s)) = (st_out s ++ lines)%list ∧
    redirect_stdout m s =
    (match fst (m s) with
     | Ret a => Ret (a, lines)
     | Raise e => Raise e
     end, with_out (snd (m s)) (st_out s)).
Proof.
  intros Hm. exists (st_out (snd (m (with_out s [])))).
  rewrite (appends_only_from_empty m s Hm). cbn [fst snd]. split; [done|].
  unfold redirect_stdout. by destruct (m (with_out s [])) as [[a|e] s0].
Qed.

(** X15.  When the conversion started by the Convert button returns, the
    log area holds exactly the lines that [convert] prints for the same
    arguments, each ended by a line feed, and one more line feed; the
    console gets none of them.  The arguments are the fields without the
    white space around them, with ["content.glb"] for a blank content
    name, which is then written back to its field.  One box is shown, for
    success or for failure as [convert] returned. *)
Theorem log_area_shows_what_convert_prints w g s res s' :
  strip (gui_input_file g) ≠ "" → strip (gui_output_dir g) ≠ "" →
  let blank := negb (nonempty (strip (gui_content_filename g))) in
  let n := if blank then "content.glb" else strip (gui_content_filename g) in
  convert w (converter g) (strip (gui_input_file g)) (strip (gui_output_dir g)) n s
    = (Ret res, s') →
  ∃ lines g',
    st_out s' = (st_out s ++ lines)%list ∧
    SPZConverterGUI_convert w g s = (Ret tt, g', with_out s' (st_out s)) ∧
    log_text g' = getvalue lines ++ newline ∧
    dialogs g' =
      (dialogs g ++ [if res then dialog_success else dialog_failure])%list ∧
    gui_content_filename g' =
      (if blank then "content.glb" else gui_content_filename g) ∧
    gui_input_file g' = gui_input_file g ∧
    gui_output_dir g' = gui_output_dir g ∧
    converter g' = converter g.
Proof.
  intros Hi Ho blank n Hconv.
  rewrite (SPZConverterGUI_convert_runs w g s Hi Ho).
  subst blank n. destruct (nonempty (strip (gui_content_filename g)));
    cbn [negb] in Hconv;
    (match goal with
     | |- context [redirect_stdout ?m s] =>
         destruct (redirect_stdout_spec m s (appends_only_convert _ _ _ _ _))
           as (lines & Hout & ->)
     end);
    rewrite Hconv in Hout |- *; cbn [fst snd] in Hout |- *;
    by exists lines; eexists.
Qed.

(** X16.  When the conversion started by the Convert button raises, as it
    does where a regular file stands at the output path, the handler
    raises too: no box is shown, the log area, cleared before the
    conversion, stays empty, so that what [convert] had printed is lost,
    and the console is in place again with nothing added. *)
Theorem handler_raises_with_convert w g s e s' :
  strip (gui_input_file g) ≠ "" → strip (gui_output_dir g) ≠ "" →
  let blank := negb (nonempty (strip (gui_content_filename g))) in
  let n := if blank then "content.glb" else strip (gui_content_filename g) in
  convert w (converter g) (strip (gui_input_file g)) (strip (gui_output_dir g)) n s
    = (Raise e, s') →
  ∃ g',
    SPZConverterGUI_convert w g s = (Raise e, g', with_out s' (st_out s)) ∧
    log_text g' = "" ∧
    dialogs g' = dialogs g.
Proof.
  intros Hi Ho blank n Hconv.
  rewrite (SPZConverterGUI_convert_runs w g s Hi Ho).
  subst blank n. destruct (nonempty (strip (gui_content_filename g)));
    cbn [negb] in Hconv;
    (match goal with
     | |- context [redirect_stdout ?m s] =>
         destruct (redirect_stdout_spec m s (appends_only_convert _ _ _ _ _))
           as (lines & Hout & ->)
     end);
    rewrite Hconv; cbn [fst snd]; by eexists.
Qed.

(* ===================================================================== *)
(** ** The further properties on the concrete installation *)
(* ===================================================================== *)

Lemma demo_children_inert os b : children_inert (Demo.world os b).
Proof. intros cmd dir f. cbn. by repeat case_match. Defined.

(** X2 with Maven installed and [JAVA_HOME] empty. *)
Lemma empty_java_home_counts_as_unset_witness :
  check_prerequisites Desk.world_empty_java_home
    (Demo.converter Desk.world_empty_java_home) Demo.s0 =
  (Ret (false, msg_no_java_home), Demo.s0).
Proof.
  apply (empty_java_home_counts_as_unset Desk.world_empty_java_home
           (Demo.converter Desk.world_empty_java_home) Demo.s0);
    reflexivity.
Defined.

(** X6 for the empty input path, which names the working directory. *)
Lemma directory_passes_as_input_witness :
  ∃ res s',
    convert (Demo.world "posix" Demo.succeeds)
      (Demo.converter (Demo.world "posix" Demo.succeeds))
      "" "out" "content.glb" Demo.s0 = (Ret res, s') ∧
    call_cmd <$> last (st_calls s') =
      Some [ "mvn"; "exec:java";
             "-Dexec.mainClass=de.javagl.jspz.examples.SpzToTileset";
             "-Dexec.args=/home/u /home/u/out content.glb";
             "-pl"; "jspz-main"; "-q" ].
Proof.
  destruct (directory_passes_as_input (Demo.world "posix" Demo.succeeds)
              (Demo.converter (Demo.world "posix" Demo.succeeds))
              "" "out" "content.glb" Demo.s0
              (Demo.s1 (Demo.world "posix" Demo.succeeds))
              (Demo.s2 (Demo.world "posix" Demo.succeeds) "out"))
    as (res & s' & Hc & Hlast).
  - vm_compute. reflexivity.
  - exists ["home"; "u"]. vm_compute. reflexivity.
  - vm_compute. reflexivity.
  - exists res, s'. split; [exact Hc|]. rewrite Hlast. vm_compute. reflexivity.
Defined.

(** X7 for a conversion that fails after its output directory was made. *)
Lemma convert_only_adds_directories_witness :
  only_adds_dirs Demo.fs0
    (st_fs (snd (convert (Demo.world "posix" Demo.fails)
                   (Demo.converter (Demo.world "posix" Demo.fails))
                   "in.spz" "out/a" "content.glb" Demo.s0))).
Proof.
  apply (convert_only_adds_directories (Demo.world "posix" Demo.fails)
           (Demo.converter (Demo.world "posix" Demo.fails))
           "in.spz" "out/a" "content.glb" Demo.s0).
  apply demo_children_inert.
Defined.

(** X8 for a conversion command that writes its two files and then exits
    with status 1. *)
Lemma output_directory_stays_witness :
  ∃ s',
    convert (Desk.world_writing 1) (Demo.converter (Desk.world_writing 1))
      "in.spz" "out" "content.glb" Demo.s0 = (Ret false, s') ∧
    st_fs s' !! ["home"; "u"; "out"; "tileset.json"] = Some File ∧
    is_dir_in (Desk.world_writing 1) (st_fs s') (Path "out").
Proof.
  destruct (output_directory_stays (Desk.world_writing 1)
              (Demo.converter (Desk.world_writing 1))
              "in.spz" "out" "content.glb" Demo.s0
              (Demo.s2 (Desk.world_writing 1) "out"))
    as (res & s' & Hc & Hfs & Hdir).
  - exists (Demo.s1 (Desk.world_writing 1)).
    split; [vm_compute; reflexivity|]. split.
    + exists ["home"; "u"; "in.spz"], File. vm_compute. reflexivity.
    + vm_compute. reflexivity.
  - exists ["home"; "u"; "out"]. vm_compute. reflexivity.
  - exists s'. split; [|split; [|exact Hdir]].
    + rewrite Hc. f_equal. f_equal.
      apply (f_equal fst) in Hc. vm_compute in Hc. by injection Hc.
    + rewrite Hfs. vm_compute. reflexivity.
Defined.


(** X9 for paths and a name without spaces. *)
Lemma exec_args_round_trip_witness :
  ∃ payload,
    conversion_cmd (Demo.world "posix" Demo.succeeds)
      (Demo.converter (Demo.world "posix" Demo.succeeds))
      "in.spz" "out" "content.glb" !! 3%nat = Some ("-Dexec.args=" ++ payload) ∧
    split_on " " payload = [ "/home/u/in.spz"; "/home/u/out"; "content.glb" ].
Proof.
  apply (exec_args_round_trip (Demo.world "posix" Demo.succeeds)
           (Demo.converter (Demo.world "posix" Demo.succeeds))
           "in.spz" "out" "content.glb"); try reflexivity.
  repeat constructor.
Defined.

(** X10 for two pairs of paths that differ in where the space belongs. *)
Lemma exec_args_not_quoted_witness :
  conversion_cmd (Demo.world "posix" Demo.succeeds)
    (Demo.converter (Demo.world "posix" Demo.succeeds))
    "/data/a /data/b" "/out" "content.glb" =
  conversion_cmd (Demo.world "posix" Demo.succeeds)
    (Demo.converter (Demo.world "posix" Demo.succeeds))
    "/data/a" "/data/b /out" "content.glb".
Proof.
  apply (exec_args_not_quoted (Demo.world "posix" Demo.succeeds)
           (Demo.converter (Demo.world "posix" Demo.succeeds))
           "/data/a" "/data/b" "/out" "content.glb"); reflexivity.
Defined.

(** X11 for the command line [spz_converter.py in.spz]. *)
Lemma main_runs_nothing_without_both_paths_witness :
  main (Demo.world "posix" Demo.succeeds) "usage" (Arguments Desk.cli_one_path)
    Demo.s0 = (Ret (Exit 1), printed Demo.s0 ["usage"]).
Proof.
  apply (main_runs_nothing_without_both_paths (Demo.world "posix" Demo.succeeds)
           "usage" Desk.cli_one_path Demo.s0).
  right. split; [reflexivity|]. right. reflexivity.
Defined.

(** X12 for the command line [spz_converter.py --gui] on a machine with
    the toolkit. *)
Lemma exit_status_zero_cases_witness :
  Arguments Desk.cli_gui = HelpRequested ∨
  (∃ c, Arguments Desk.cli_gui = Arguments c ∧ cl_gui c = true ∧
        GUI_AVAILABLE Desk.world_with_toolkit = true ∧
        GuiSession = GuiSession) ∨
  ∃ c i o s2 d out err,
    Arguments Desk.cli_gui = Arguments c ∧ cl_gui c = false ∧
    cl_input_file c = Some i ∧ cl_output_dir c = Some o ∧
    reaches_launch Desk.world_with_toolkit
      (SPZConverter_init Desk.world_with_toolkit (cl_project_root c))
      i o Demo.s0 s2 ∧
    behaviour Desk.world_with_toolkit
      (conversion_cmd Desk.world_with_toolkit
         (SPZConverter_init Desk.world_with_toolkit (cl_project_root c))
         i o (default "content.glb" (cl_content_name c)))
      (Some (project_root
               (SPZConverter_init Desk.world_with_toolkit (cl_project_root c))))
      (st_fs s2) = Terminates d 0 out err ∧
    d < 300.
Proof.
  apply (exit_status_zero_cases Desk.world_with_toolkit "usage"
           (Arguments Desk.cli_gui) Demo.s0 GuiSession Demo.s0).
  - reflexivity.
  - reflexivity.
Defined.

(** X13 for the command line [spz_converter.py --content-name "" in.spz out]. *)
Lemma empty_content_name_is_kept_witness :
  conversion_cmd (Demo.world "posix" Demo.succeeds)
    (SPZConverter_init (Demo.world "posix" Demo.succeeds) None)
    "in.spz" "out" "" !! 3%nat =
    Some "-Dexec.args=/home/u/in.spz /home/u/out " ∧
  Path "out" // "" = Path "out".
Proof.
  destruct (empty_content_name_is_kept (Demo.world "posix" Demo.succeeds) "usage"
              Desk.cli_empty_name "in.spz" "out" Demo.s0)
    as (_ & Hcmd & Hpath); try reflexivity; try discriminate.
  split; [exact Hcmd | exact Hpath].
Defined.

(** X14 for the Convert button of a window that was just opened. *)
Lemma blank_field_only_shows_error_witness :
  SPZConverterGUI_convert (Demo.world "posix" Demo.succeeds)
    (SPZConverterGUI_init (Demo.world "posix" Demo.succeeds)) Demo.s0 =
  (Ret tt,
   show dialog_no_input (SPZConverterGUI_init (Demo.world "posix" Demo.succeeds)),
   Demo.s0).
Proof.
  destruct (blank_field_only_shows_error (Demo.world "posix" Demo.succeeds)
              (SPZConverterGUI_init (Demo.world "posix" Demo.succeeds)) Demo.s0)
    as (Hinput & _).
  apply Hinput. reflexivity.
Defined.

(** X15 for fields typed with blanks around them and a blank content
    name, and a conversion command that succeeds. *)
Lemma log_area_shows_what_convert_prints_witness :
  ∃ g' s'',
    SPZConverterGUI_convert (Demo.world "posix" Demo.succeeds)
      (Desk.window (Demo.world "posix" Demo.succeeds)) Demo.s0 = (Ret tt, g', s'') ∧
    st_out s'' = [] ∧
    dialogs g' = [dialog_success] ∧
    gui_content_filename g' = "content.glb" ∧
    log_text g' =
      getvalue
        [ "Converting in.spz to out...";
          "Running: mvn exec:java -Dexec.mainClass=de.javagl.jspz.examples.SpzToTileset -Dexec.args=/home/u/in.spz /home/u/out content.glb -pl jspz-main -q";
          "✓ Conversion completed successfully!";
          "  Output files:";
          "    - out/tileset.json";
          "    - out/content.glb" ] ++ newline.
Proof.
  destruct (log_area_shows_what_convert_prints (Demo.world "posix" Demo.succeeds)
              (Desk.window (Demo.world "posix" Demo.succeeds)) Demo.s0 true
              (snd (convert (Demo.world "posix" Demo.succeeds)
                      (Demo.converter (Demo.world "posix" Demo.succeeds))
                      "in.spz" "out" "content.glb" Demo.s0)))
    as (lines & g' & Hout & Hrun & Hlog & Hdlg & Hname & _).
  - vm_compute. discriminate.
  - vm_compute. discriminate.
  - vm_compute. reflexivity.
  - exists g'. eexists. split; [exact Hrun|]. split; [reflexivity|].
    split; [exact Hdlg|]. split; [exact Hname|].
    rewrite Hlog. f_equal. f_equal. vm_compute in Hout. by subst lines.
Defined.

(** X16 for a window whose output directory is the input file. *)
Lemma handler_raises_with_convert_witness :
  ∃ g' s'',
    SPZConverterGUI_convert (Demo.world "posix" Demo.succeeds)
      (set_output_dir "in.spz" (Desk.window (Demo.world "posix" Demo.succeeds)))
      Demo.s0 =
    (Raise (FileExistsError "[Errno 17] File exists: 'in.spz'"), g', s'') ∧
    log_text g' = "" ∧ dialogs g' = [] ∧ st_out s'' = [].
Proof.
  destruct (handler_raises_with_convert (Demo.world "posix" Demo.succeeds)
              (set_output_dir "in.spz" (Desk.window (Demo.world "posix" Demo.succeeds)))
              Demo.s0 (FileExistsError "[Errno 17] File exists: 'in.spz'")
              (Demo.s1 (Demo.world "posix" Demo.succeeds)))
    as (g' & Hrun & Hlog & Hdlg).
  - vm_compute. discriminate.
  - vm_compute. discriminate.
  - vm_compute. reflexivity.
  - exists g'. eexists. split; [exact Hrun|]. split; [exact Hlog|].
    split; [exact Hdlg | reflexivity].
Defined.
